(** * python_renamer: the rename engine of the drag-and-drop renamers and of
      the batch script

    Sources embedded here:
    - [renamer_dnd.py] (PyQt5, with its copy under [_bak]) and
      [renamer_dnd_Qt6.py] (PyQt6), in [Gui]: the handlers [dropEvent],
      [update_file_count], [update_preview], [rename_files] and
      [clear_files];
    - [rename_pbr_textures.py], in [Batch]: [load_rename_patterns] and
      [rename_files].

    Python strings are lists of characters ([Str] has the methods used),
    the operating system is an interface ([Platform]) whose [os.rename] and
    [open] may raise, and the handlers are programs of a state-and-exception
    monad, so that "no exception leaves the handler" is a statement to be
    proved. What the programs write is kept by its format, one constructor
    for each format string of the source. *)

From Stdlib Require Import String Ascii List Bool Arith Lia.
Import ListNotations.

(** ** Python strings *)

(** A [str] is a sequence of characters; the characters are the code points
    below 256. *)
Definition str := list ascii.

(** String literals of the examples. *)
Definition py (s : string) : str := list_ascii_of_string s.

Definition str_eqb (a b : str) : bool :=
  if list_eq_dec ascii_dec a b then true else false.

Module Str.

(** [s.startswith(p)] *)
Fixpoint startswith (p s : str) : bool :=
  match p, s with
  | [], _ => true
  | _ :: _, [] => false
  | a :: p', c :: s' => Ascii.eqb a c && startswith p' s'
  end.

(** [s.endswith(p)] *)
Definition endswith (p s : str) : bool := startswith (rev p) (rev s).

(** [p in s]: [p] occurs in [s] as a substring; the empty string occurs in
    every string. *)
Fixpoint contains (p s : str) : bool :=
  startswith p s ||
  match s with
  | [] => false
  | _ :: s' => contains p s'
  end.

(** The scan of [s.replace(old, new)] for a non-empty [old]: [skip] counts
    the characters of the occurrence just replaced that are still to be
    passed over. *)
Fixpoint replace_from (old new : str) (skip : nat) (s : str) : str :=
  match s with
  | [] => []
  | c :: s' =>
      match skip with
      | S k => replace_from old new k s'
      | O =>
          if startswith old s
          then new ++ replace_from old new (length old - 1) s'
          else c :: replace_from old new 0 s'
      end
  end.

(** [s.replace(old, new)]. With an empty [old], Python puts [new] before
    every character and at the end. *)
Definition replace (old new s : str) : str :=
  match old with
  | [] => new ++ flat_map (fun c => c :: new) s
  | _ :: _ => replace_from old new 0 s
  end.

(** [c.isspace()] on the code points below 256: tab to carriage return,
    the four separators 28 to 31, space, NEL (133) and the no-break space
    (160). *)
Definition isspace (c : ascii) : bool :=
  let n := nat_of_ascii c in
  ((9 <=? n) && (n <=? 13)) || ((28 <=? n) && (n <=? 32))
  || (n =? 133) || (n =? 160).

Fixpoint lstrip (s : str) : str :=
  match s with
  | c :: s' => if isspace c then lstrip s' else s
  | [] => []
  end.

Definition rstrip (s : str) : str := rev (lstrip (rev s)).

(** [s.strip()] *)
Definition strip (s : str) : str := rstrip (lstrip s).

End Str.

(** What "every non-overlapping occurrence, scanning left to right" means:
    at each position, an occurrence of [old] that starts there is replaced
    and the scan goes on behind it; otherwise the character is kept. *)
Inductive ReplacedAll (old new : str) : str -> str -> Prop :=
| RA_end : ReplacedAll old new [] []
| RA_hit s r :
    ReplacedAll old new s r ->
    ReplacedAll old new (old ++ s) (new ++ r)
| RA_keep c s r :
    Str.startswith old (c :: s) = false ->
    ReplacedAll old new s r ->
    ReplacedAll old new (c :: s) (c :: r).

(** ** Rule sets *)

(** A Python [dict] from [str] to [str], in insertion order. *)
Definition pydict := list (str * str).

(** [d[k] = v]: a key already present keeps its place and gets the new
    value, a new key goes to the end. *)
Fixpoint dict_set (d : pydict) (k v : str) : pydict :=
  match d with
  | [] => [(k, v)]
  | (k', v') :: d' =>
      if str_eqb k' k then (k', v) :: d' else (k', v') :: dict_set d' k v
  end.

(** One turn of the loop of [rename_pbr_textures.py], lines 116 to 118. *)
Definition apply_pattern (new_file_name : str) (item : str * str) : str :=
  let (old_pattern, new_pattern) := item in
  if Str.contains old_pattern new_file_name
  then Str.replace old_pattern new_pattern new_file_name
  else new_file_name.

(** Lines 113 to 118: [new_file_name = file], then the loop over
    [patterns.items()]. *)
Definition compute_new_name (file : str) (patterns : pydict) : str :=
  fold_left apply_pattern patterns file.

(** One more run with the single rule [(m, r)], as a function of the name. *)
Definition apply_again (m r : str) (name : str) : str :=
  compute_new_name name [(m, r)].

(** [l1] is [l2] with some elements left out. *)
Inductive subseq {A : Type} : list A -> list A -> Prop :=
| subseq_nil : subseq [] []
| subseq_take x l1 l2 : subseq l1 l2 -> subseq (x :: l1) (x :: l2)
| subseq_drop x l1 l2 : subseq l1 l2 -> subseq l1 (x :: l2).

(** ** Exceptions and the monad of the handlers *)

(** The exceptions that the modelled code can meet; [str(e)] is the carried
    text. Both are subclasses of [Exception]. *)
Inductive exn :=
| OSError (msg : str)
| NameError (name : string).

Inductive result (A : Type) :=
| Return (a : A)
| Raise (e : exn).

Arguments Return {A} a.
Arguments Raise {A} e.

(** The operating system, as far as the scripts use it. [os.rename] and
    [open] either return or raise; the path functions are pure. *)
Class Platform := {
  FS : Type;
  rename : str -> str -> FS -> result unit * FS;
  open_read : str -> FS -> result str;
  open_write : str -> FS -> result unit * FS;
  isfile : str -> FS -> bool;
  dirname : str -> str;
  basename : str -> str;
  join : str -> str -> str
}.

(** The text that the batch script prints and writes to its log. *)
Inductive status_message :=
| RenamedTo (new_file_name : str)   (* "renamed to -> {new_file_name}" *)
| Failed (e : exn)                  (* "Failed: {e}" *)
| Skipped.                          (* "skipped" *)

Inductive out_line :=
| ErrorReadingConfig (e : exn)      (* "Error reading config file: {e}" *)
| Started                           (* "=== Rename process started at ..." *)
| Processing (file : str) (status : status_message)
                                    (* "Processing file: {file}{status}" *)
| Finished                          (* "=== Rename process finished ===" *)
| TotalRenamed (rename_count : nat) (* "Total files renamed: {n}" *)
| TotalSkipped (skipped_count : nat).

Section Runtime.

Context {P : Platform}.

(** The world outside the program: the file system, the [os.rename] calls
    made so far (oldest first) and what was printed. *)
Record world := World {
  fs : FS;
  renames : list (str * str);
  stdout : list out_line
}.

(** A program over local state [S]: it runs in a world and either returns
    or raises; the state reached is kept in both cases. *)
Definition M (S A : Type) : Type := world -> S -> result A * world * S.

Definition ret {S A} (a : A) : M S A := fun w s => (Return a, w, s).

Definition bind {S A B} (c : M S A) (k : A -> M S B) : M S B :=
  fun w s =>
    match c w s with
    | (Return a, w', s') => k a w' s'
    | (Raise e, w', s') => (Raise e, w', s')
    end.

Definition raise {S A} (e : exn) : M S A := fun w s => (Raise e, w, s).

(** [try: c  except Exception as e: h e] *)
Definition try_except {S A} (c : M S A) (h : exn -> M S A) : M S A :=
  fun w s =>
    match c w s with
    | (Return a, w', s') => (Return a, w', s')
    | (Raise e, w', s') => h e w' s'
    end.

Definition get {S} : M S S := fun w s => (Return s, w, s).

Definition modify {S} (f : S -> S) : M S unit := fun w s => (Return tt, w, f s).

(** A call of a function with local state of its own. *)
Definition call {S S' A} (locals : S') (c : M S' A) : M S A :=
  fun w s => let '(r, w', _) := c w locals in (r, w', s).

(** [for x in xs: body x] *)
Fixpoint for_each {S A} (xs : list A) (body : A -> M S unit) : M S unit :=
  match xs with
  | [] => ret tt
  | x :: xs' => bind (body x) (fun _ => for_each xs' body)
  end.

(** [os.rename(src, dst)], recorded in [renames]. *)
Definition os_rename {S} (src dst : str) : M S unit :=
  fun w s =>
    let (r, fs') := rename src dst (fs w) in
    (r, World fs' (renames w ++ [(src, dst)]) (stdout w), s).

Definition print {S} (l : out_line) : M S unit :=
  fun w s => (Return tt, World (fs w) (renames w) (stdout w ++ [l]), s).

(** [open(path, ...)] for reading, giving the content, and for writing. *)
Definition py_open_read {S} (path : str) : M S str :=
  fun w s => (open_read path (fs w), w, s).

Definition py_open_write {S} (path : str) : M S unit :=
  fun w s =>
    let (r, fs') := open_write path (fs w) in
    (r, World fs' (renames w) (stdout w), s).

End Runtime.

Arguments world : clear implicits.
Arguments M : clear implicits.

Module MonadNotation.

Notation "x <- c ;; k" := (bind c (fun x => k))
  (at level 61, c at next level, right associativity).
Notation "c ;; k" := (bind c (fun _ => k))
  (at level 61, right associativity).

End MonadNotation.

(** ** The drag-and-drop renamers *)

Module Gui.

Import MonadNotation.

(** [renamer_dnd.py] (and its copy under [_bak]) and [renamer_dnd_Qt6.py]. *)
Inductive variant := PyQt5 | PyQt6.

(** A line of the log panel. *)
Inductive log_line :=
| NoFilesToRename                          (* "No files to rename." *)
| PatternCannotBeEmpty                     (* "Pattern cannot be empty." *)
| Renamed (filename new_filename : str)    (* "Renamed: {filename} -> {new_filename}" *)
| FailedToRename (filename : str) (e : exn)
                                           (* "Failed to rename {filename}: {e}" *)
| FilesRenamed (renamed_count : nat).      (* "{renamed_count} file(s) renamed." *)

(** A line of the live preview of the PyQt6 variant. *)
Inductive preview_line :=
| WillRename (filename new_name : str)     (* "{filename}  ->  {new_name}" *)
| NoChange (filename : str).               (* "{filename}  (no change)" *)

(** The window: [files] is [self.files] (PyQt5) or [self.drop_area.files]
    (PyQt6), [drop_area] the rows of the list widget. *)
Record FileRenamerApp := App {
  files : list str;
  drop_area : list str;
  file_count_label : nat;
  pattern_input : str;
  replace_input : str;
  preview_area : list preview_line;
  log_output : list log_line
}.

Definition initUI : FileRenamerApp := App [] [] 0 [] [] [] [].

(** The data of a drop: [event.mimeData().hasUrls()] and the local paths
    of [event.mimeData().urls()]. *)
Record drop_event := DropEvent {
  hasUrls : bool;
  urls : list str
}.

Definition set_files (f : list str -> list str) (a : FileRenamerApp) : FileRenamerApp :=
  App (f (files a)) (drop_area a) (file_count_label a) (pattern_input a)
      (replace_input a) (preview_area a) (log_output a).

Definition addItem (x : str) (a : FileRenamerApp) : FileRenamerApp :=
  App (files a) (drop_area a ++ [x]) (file_count_label a) (pattern_input a)
      (replace_input a) (preview_area a) (log_output a).

Definition log_append (l : log_line) (a : FileRenamerApp) : FileRenamerApp :=
  App (files a) (drop_area a) (file_count_label a) (pattern_input a)
      (replace_input a) (preview_area a) (log_output a ++ [l]).

Definition setText_pattern (t : str) (a : FileRenamerApp) : FileRenamerApp :=
  App (files a) (drop_area a) (file_count_label a) t
      (replace_input a) (preview_area a) (log_output a).

Definition setText_replace (t : str) (a : FileRenamerApp) : FileRenamerApp :=
  App (files a) (drop_area a) (file_count_label a) (pattern_input a)
      t (preview_area a) (log_output a).

Definition update_file_count (a : FileRenamerApp) : FileRenamerApp :=
  App (files a) (drop_area a) (length (files a)) (pattern_input a)
      (replace_input a) (preview_area a) (log_output a).

(** [file_path in self.files] *)
Definition in_files (file_path : str) (fl : list str) : bool :=
  existsb (str_eqb file_path) fl.

(** What the user can do with the window. *)
Inductive event :=
| Drop (e : drop_event)
| TypePattern (text : str)
| TypeReplace (text : str)
| Process
| Cancel.

Definition log_extend (ls : list log_line) (a : FileRenamerApp) : FileRenamerApp :=
  App (files a) (drop_area a) (file_count_label a) (pattern_input a)
      (replace_input a) (preview_area a) (log_output a ++ ls).

(** A window with more candidates at the end of the list. *)
Definition add_files (new : list str) (a : FileRenamerApp) : FileRenamerApp :=
  App (files a ++ new) (drop_area a ++ new) (file_count_label a)
      (pattern_input a) (replace_input a) (preview_area a) (log_output a).

Section Handlers.

Context {P : Platform}.

(** [update_preview] of the PyQt6 variant; the texts are taken as typed. *)
Definition update_preview (a : FileRenamerApp) : FileRenamerApp :=
  let pattern := pattern_input a in
  let replace := replace_input a in
  let preview :=
    map (fun file_path =>
           let filename := basename file_path in
           if Str.contains pattern filename
           then WillRename filename (Str.replace pattern replace filename)
           else NoChange filename)
        (files a) in
  App (files a) (drop_area a) (file_count_label a) (pattern_input a)
      (replace_input a) preview (log_output a).

(** The loop of [dropEvent]; the flag is [changed] of the PyQt6 variant. *)
Fixpoint drop_loop (w : world P) (us : list str)
    (st : FileRenamerApp * bool) : FileRenamerApp * bool :=
  match us with
  | [] => st
  | file_path :: us' =>
      let (a, changed) := st in
      if isfile file_path (fs w) && negb (in_files file_path (files a))
      then drop_loop w us' (addItem file_path (set_files (fun fl => fl ++ [file_path]) a), true)
      else drop_loop w us' st
  end.

Definition dropEvent (v : variant) (event : drop_event) : M P FileRenamerApp unit :=
  fun w a =>
    match v with
    | PyQt5 =>
        let (a', _) := drop_loop w (urls event) (a, false) in
        (Return tt, w, update_file_count a')
    | PyQt6 =>
        if hasUrls event then
          let (a', changed) := drop_loop w (urls event) (a, false) in
          let a'' := update_file_count a' in
          (Return tt, w, if changed then update_preview a'' else a'')
        else (Return tt, w, a)
    end.

Definition clear_files (v : variant) (a : FileRenamerApp) : FileRenamerApp :=
  let a' :=
    update_file_count
      (App [] [] (file_count_label a) (pattern_input a) (replace_input a)
           (preview_area a) (log_output a)) in
  match v with
  | PyQt5 => a'
  | PyQt6 => update_preview a'
  end.

(** The body of the loop of [rename_files]; it returns the new value of
    [renamed_count]. *)
Definition rename_one (pattern replace : str) (renamed_count : nat)
    (file_path : str) : M P FileRenamerApp nat :=
  let folder := dirname file_path in
  let filename := basename file_path in
  if Str.contains pattern filename then
    let new_filename := Str.replace pattern replace filename in
    let new_file_path := join folder new_filename in
    try_except
      (os_rename file_path new_file_path ;;
       modify (log_append (Renamed filename new_filename)) ;;
       ret (renamed_count + 1))
      (fun e =>
         modify (log_append (FailedToRename filename e)) ;;
         ret renamed_count)
  else ret renamed_count.

Fixpoint rename_loop (pattern replace : str) (renamed_count : nat)
    (fl : list str) : M P FileRenamerApp nat :=
  match fl with
  | [] => ret renamed_count
  | file_path :: fl' =>
      n <- rename_one pattern replace renamed_count file_path ;;
      rename_loop pattern replace n fl'
  end.

(** [rename_files], the handler of the Process button. *)
Definition rename_files (v : variant) : M P FileRenamerApp unit :=
  a <- get ;;
  match files a with
  | [] => modify (log_append NoFilesToRename)
  | _ :: _ =>
      let pattern := Str.strip (pattern_input a) in
      let replace := Str.strip (replace_input a) in
      match pattern with
      | [] => modify (log_append PatternCannotBeEmpty)
      | _ :: _ =>
          renamed_count <- rename_loop pattern replace 0 (files a) ;;
          modify (log_append (FilesRenamed renamed_count)) ;;
          modify (clear_files v)
      end
  end.

Definition textChanged (v : variant) (a : FileRenamerApp) : FileRenamerApp :=
  match v with
  | PyQt5 => a
  | PyQt6 => update_preview a
  end.

Definition handle (v : variant) (e : event) : M P FileRenamerApp unit :=
  match e with
  | Drop d => dropEvent v d
  | TypePattern t => modify (fun a => textChanged v (setText_pattern t a))
  | TypeReplace t => modify (fun a => textChanged v (setText_replace t a))
  | Process => rename_files v
  | Cancel => modify (clear_files v)
  end.

(** A session: the events in turn, from the freshly built window. *)
Definition session (v : variant) (es : list event) : M P FileRenamerApp unit :=
  for_each es (handle v).

(** Names for the statements about [rename_files]: the test of line 149,
    and the path handed to [os.rename] as destination. *)
Definition occurs_in (pattern file_path : str) : bool :=
  Str.contains pattern (basename file_path).

Definition destination (pattern replace file_path : str) : str :=
  join (dirname file_path)
       (Str.replace pattern replace (basename file_path)).

(** A log line that reports on the candidate [file_path]. *)
Definition reports (file_path : str) (l : log_line) : Prop :=
  (exists new_filename, l = Renamed (basename file_path) new_filename)
  \/ (exists e, l = FailedToRename (basename file_path) e).

End Handlers.

End Gui.

(** ** The batch script [rename_pbr_textures.py] *)

Module Batch.

Import MonadNotation.

(** The names bound at module level, and the builtins the script uses. The
    script has no [import csv]. *)
Definition module_globals : list string :=
  ["os"; "json"; "datetime"; "CONFIG_PATH"; "load_config"; "config";
   "SOURCE_DIRECTORY"; "CONFIG_FILE"; "LOG_FILE"; "load_rename_patterns";
   "rename_files"]%string.

Definition builtins : list string :=
  ["open"; "print"; "len"; "sorted"; "set"; "Exception"]%string.

(** The locals of [rename_files]; [log] holds the lines written to the log
    file. The lines that list the processed directories and the file
    locations are not modelled, they only print. *)
Record batch := Batch {
  rename_count : nat;
  skipped_count : nat;
  processed_paths : list str;
  log : list out_line
}.

(** The locals of [rename_files] at its first line. *)
Definition batch_start : batch := Batch 0 0 [] [].

(** The lines of files that are all skipped. *)
Definition skipped_lines (rfs : list (str * str)) : list out_line :=
  map (fun rf => Processing (snd rf) Skipped) rfs.

(** The files that the loop takes up: those of one directory, and those
    of the whole walk in its order. *)
Definition pngs_of (root : str) (files : list str) : list (str * str) :=
  map (fun file => (root, file))
      (filter (Str.endswith (py ".png")) files).

Definition png_files (walk : list (str * list str)) : list (str * str) :=
  flat_map (fun '(root, files) => pngs_of root files) walk.

Section Script.

Context {P : Platform}.

(** Evaluating a global name. *)
Definition load_name {S} (name : string) : M P S unit :=
  if existsb (String.eqb name) (module_globals ++ builtins)
  then ret tt
  else raise (NameError name).

Definition log_write (l : out_line) : M P batch unit :=
  modify (fun b => Batch (rename_count b) (skipped_count b)
                         (processed_paths b) (log b ++ [l])).

(** Names for the statements about the loop: the test of line 126, the
    arguments of [os.rename] in line 128, and the line that the loop prints
    for a file. *)
Definition path_changes (patterns : pydict) (rf : str * str) : bool :=
  let (root, file) := rf in
  negb (str_eqb (join root file)
                (join root (compute_new_name file patterns))).

Definition rename_args (patterns : pydict) (rf : str * str) : str * str :=
  let (root, file) := rf in
  (join root file, join root (compute_new_name file patterns)).

Definition line_for (patterns : pydict) (rf : str * str) (l : out_line)
    : Prop :=
  if path_changes patterns rf
  then l = Processing (snd rf) (RenamedTo (compute_new_name (snd rf) patterns))
       \/ exists e, l = Processing (snd rf) (Failed e)
  else l = Processing (snd rf) Skipped.

Section Constants.

(** The module constants read from the JSON configuration, and the rows
    that [csv.reader(csvfile, delimiter=';')] would give for a file
    content. *)
Variables (CONFIG_FILE LOG_FILE : str).
Variable csv_reader : str -> list (list str).

(** [load_rename_patterns]; its local [patterns] is the state. *)
Definition load_rename_patterns : M P pydict pydict :=
  try_except
    (csvfile <- py_open_read CONFIG_FILE ;;
     load_name "csv" ;;
     for_each (csv_reader csvfile)
       (fun row =>
          match row with
          | [c0; c1] =>
              let old_name := Str.strip c0 in
              let new_name := Str.strip c1 in
              modify (fun patterns => dict_set patterns old_name new_name)
          | _ => ret tt
          end))
    (fun e => print (ErrorReadingConfig e)) ;;
  get.

(** Lines 111 to 139, for one [file] of a directory [root]. *)
Definition process_file (patterns : pydict) (root file : str)
    : M P batch unit :=
  if Str.endswith (py ".png") file then
    let old_path := join root file in
    let new_file_name := compute_new_name file patterns in
    let new_path := join root new_file_name in
    modify (fun b => Batch (rename_count b) (skipped_count b)
                           (processed_paths b ++ [root]) (log b)) ;;
    status_message <-
      (if negb (str_eqb old_path new_path) then
         try_except
           (os_rename old_path new_path ;;
            modify (fun b => Batch (rename_count b + 1) (skipped_count b)
                                   (processed_paths b) (log b)) ;;
            ret (RenamedTo new_file_name))
           (fun e => ret (Failed e))
       else
         modify (fun b => Batch (rename_count b) (skipped_count b + 1)
                                (processed_paths b) (log b)) ;;
         ret Skipped) ;;
    print (Processing file status_message) ;;
    log_write (Processing file status_message)
  else ret tt.

(** The loop over [os.walk(SOURCE_DIRECTORY)]; [walk] lists the pairs of
    [root] and [files] that the walk yields during the run. *)
Definition walk_loop (patterns : pydict) (walk : list (str * list str))
    : M P batch unit :=
  for_each walk
    (fun '(root, files) => for_each files (process_file patterns root)).

(** [rename_files] from line 106 on, with [patterns] loaded. *)
Definition rename_with (patterns : pydict) (walk : list (str * list str))
    : M P batch unit :=
  py_open_write LOG_FILE ;;
  log_write Started ;;
  walk_loop patterns walk ;;
  b <- get ;;
  log_write Finished ;;
  log_write (TotalRenamed (rename_count b)) ;;
  log_write (TotalSkipped (skipped_count b)) ;;
  print Finished ;;
  print (TotalRenamed (rename_count b)) ;;
  print (TotalSkipped (skipped_count b)).

(** [rename_files]: line 104, then the rest. *)
Definition rename_files (walk : list (str * list str))
    : M P batch unit :=
  patterns <- call [] load_rename_patterns ;;
  rename_with patterns walk.

End Constants.

End Script.

End Batch.

(** ** A platform to run the programs on *)

Module Sample.

(** POSIX path syntax, after [posixpath]. *)
Definition slash : ascii := "/"%char.

Fixpoint after_last_slash (acc p : str) : str :=
  match p with
  | [] => acc
  | c :: p' =>
      if Ascii.eqb c slash then after_last_slash [] p'
      else after_last_slash (acc ++ [c]) p'
  end.

Definition basename (p : str) : str := after_last_slash [] p.

Fixpoint rstrip_slash_rev (r : str) : str :=
  match r with
  | c :: r' => if Ascii.eqb c slash then rstrip_slash_rev r' else r
  | [] => []
  end.

Definition dirname (p : str) : str :=
  let head := firstn (length p - length (basename p)) p in
  if forallb (Ascii.eqb slash) head then head
  else rev (rstrip_slash_rev (rev head)).

Definition join (a b : str) : str :=
  if Str.startswith [slash] b then b
  else if Str.endswith [slash] a || match a with [] => true | _ => false end
       then a ++ b
       else a ++ slash :: b.

(** The files, each with its content. *)
Definition FS := list (str * str).

Definition exists_file (p : str) (d : FS) : bool :=
  existsb (fun e => str_eqb (fst e) p) d.

(** [os.rename] raises when the source is missing, and, as on Windows,
    when the destination is another existing file. *)
Definition rename (src dst : str) (d : FS) : result unit * FS :=
  if negb (exists_file src d) then
    (Raise (OSError (py "No such file or directory")), d)
  else if str_eqb src dst then (Return tt, d)
  else if exists_file dst d then
    (Raise (OSError (py "Cannot create a file when that file already exists")), d)
  else
    (Return tt,
     map (fun e => if str_eqb (fst e) src then (dst, snd e) else e) d).

Definition open_read (p : str) (d : FS) : result str :=
  match find (fun e => str_eqb (fst e) p) d with
  | Some e => Return (snd e)
  | None => Raise (OSError (py "No such file or directory"))
  end.

Definition open_write (p : str) (d : FS) : result unit * FS :=
  (Return tt, (p, []) :: filter (fun e => negb (str_eqb (fst e) p)) d).

#[export] Instance platform : Platform := {
  FS := FS;
  rename := rename;
  open_read := open_read;
  open_write := open_write;
  isfile := exists_file;
  dirname := dirname;
  basename := basename;
  join := join
}.

Definition start (d : FS) : world platform := World d [] [].

(** A folder of textures, and a window that holds some of them. *)
Definition tex : FS :=
  [(py "/tex/wood_Diffuse.png", []);
   (py "/tex/wood_COL.png", []);
   (py "/tex/oak_Diffuse.png", []);
   (py "/tex/wood_Normal.png", [])].

Definition window (fl : list str) (pattern replace : str)
    : Gui.FileRenamerApp :=
  Gui.App fl fl (length fl) pattern replace [] [].

End Sample.

(** ** Names for further statements *)

(** The kinds of lines of the log panel and of the batch output. *)
Definition is_renamed (l : Gui.log_line) : bool :=
  match l with
  | Gui.Renamed _ _ => true
  | _ => false
  end.

Definition is_failed_to_rename (l : Gui.log_line) : bool :=
  match l with
  | Gui.FailedToRename _ _ => true
  | _ => false
  end.

Definition renamed_line (l : out_line) : bool :=
  match l with
  | Processing _ (RenamedTo _) => true
  | _ => false
  end.

Definition failed_line (l : out_line) : bool :=
  match l with
  | Processing _ (Failed _) => true
  | _ => false
  end.

Definition skipped_line (l : out_line) : bool :=
  match l with
  | Processing _ Skipped => true
  | _ => false
  end.

(** A walk with the files left out that the loop does not take up. *)
Definition png_only (walk : list (str * list str)) : list (str * list str) :=
  map (fun '(root, files) =>
         (root, filter (Str.endswith (py ".png")) files))
      walk.

(** What every handler keeps: the rows of the list widget are the
    candidates, and the label shows their number. *)
Definition shows_candidates (a : Gui.FileRenamerApp) : Prop :=
  Gui.drop_area a = Gui.files a
  /\ Gui.file_count_label a = length (Gui.files a).

Section Preview.

Context {P : Platform}.

(** The calls of [os.rename] that a preview announces: for each candidate
    shown with a new name, the candidate and that name in its folder. *)
Fixpoint calls_of_preview (fl : list str) (pv : list Gui.preview_line)
    : list (str * str) :=
  match fl, pv with
  | file_path :: fl', Gui.WillRename _ new_name :: pv' =>
      (file_path, join (dirname file_path) new_name)
      :: calls_of_preview fl' pv'
  | _ :: fl', Gui.NoChange _ :: pv' => calls_of_preview fl' pv'
  | _, _ => []
  end.

(** The preview shown is the one that [update_preview] would compute
    from the candidates and the texts as they are now. *)
Definition preview_is_current (a : Gui.FileRenamerApp) : Prop :=
  Gui.preview_area a = Gui.preview_area (Gui.update_preview a).

End Preview.

(** A platform on which nothing can be written: [os.rename] and [open] for
    writing raise. *)
Module ReadOnly.

Definition denied : exn := OSError (py "Permission denied").

Definition platform : Platform := {|
  FS := Sample.FS;
  rename := fun _ _ d => (Raise denied, d);
  open_read := Sample.open_read;
  open_write := fun _ d => (Raise denied, d);
  isfile := Sample.exists_file;
  dirname := Sample.dirname;
  basename := Sample.basename;
  join := Sample.join
|}.

Definition start (d : Sample.FS) : world platform :=
  @World platform d [] [].

End ReadOnly.

(** ** Facts about the string operations *)

Section StrFacts.

Import Str.

Lemma str_eqb_eq (a b : str) : str_eqb a b = true <-> a = b.
Proof.
  unfold str_eqb. destruct (list_eq_dec ascii_dec a b); split; congruence.
Qed.

Lemma str_eqb_refl (a : str) : str_eqb a a = true.
Proof. now apply str_eqb_eq. Qed.

Lemma startswith_app (p s : str) : startswith p (p ++ s) = true.
Proof.
  induction p as [|a p IH]; simpl; [reflexivity|].
  now rewrite Ascii.eqb_refl, IH.
Qed.

Lemma startswith_inv (p s : str) :
  startswith p s = true -> exists t, s = p ++ t.
Proof.
  revert s; induction p as [|a p IH]; intros s H.
  - now exists s.
  - destruct s as [|c s]; simpl in H; [discriminate|].
    apply andb_true_iff in H as [Hc Hp].
    apply Ascii.eqb_eq in Hc; subst c.
    destruct (IH _ Hp) as [t ->]. now exists t.
Qed.

(** The scan of a string for a non-empty pattern, as an induction
    principle: at each position either the pattern starts there and the scan
    jumps behind it, or one character is passed. *)
Lemma scan_ind (old : str) (Hold : old <> []) (Q : str -> Prop) :
  Q [] ->
  (forall t, Q t -> Q (old ++ t)) ->
  (forall c s, startswith old (c :: s) = false -> Q s -> Q (c :: s)) ->
  forall s, Q s.
Proof.
  intros Hnil Hhit Hkeep s.
  remember (length s) as n eqn:Hn.
  revert s Hn. induction n as [n IH] using lt_wf_ind. intros s Hn.
  destruct s as [|c s]; [exact Hnil|].
  destruct (startswith old (c :: s)) eqn:Hs.
  - destruct (startswith_inv _ _ Hs) as [t Ht]. rewrite Ht.
    apply Hhit. apply (IH (length t)); [|reflexivity].
    subst n. rewrite Ht, length_app.
    destruct old; [congruence | simpl; lia].
  - apply Hkeep; [exact Hs|].
    apply (IH (length s)); [subst n; simpl; lia | reflexivity].
Qed.

Lemma replace_from_skip (old new pre s : str) :
  replace_from old new (length pre) (pre ++ s) = replace_from old new 0 s.
Proof.
  induction pre as [|a pre IH]; simpl; [reflexivity | exact IH].
Qed.

Lemma replace_nonempty (old new s : str) :
  old <> [] -> replace old new s = replace_from old new 0 s.
Proof. destruct old; [congruence | reflexivity]. Qed.

Lemma replace_nil (old new : str) : old <> [] -> replace old new [] = [].
Proof. intros H; now rewrite replace_nonempty. Qed.

Lemma replace_hit (old new s : str) :
  old <> [] -> replace old new (old ++ s) = new ++ replace old new s.
Proof.
  intros H. rewrite !replace_nonempty by assumption.
  destruct old as [|a old]; [congruence|].
  change ((a :: old) ++ s) with (a :: (old ++ s)).
  cbn [replace_from].
  change (a :: (old ++ s)) with ((a :: old) ++ s).
  rewrite startswith_app.
  replace (length (a :: old) - 1) with (length old) by (simpl; lia).
  now rewrite replace_from_skip.
Qed.

Lemma replace_keep (old new : str) c s :
  old <> [] -> startswith old (c :: s) = false ->
  replace old new (c :: s) = c :: replace old new s.
Proof.
  intros H Hs. rewrite !replace_nonempty by assumption.
  cbn [replace_from]. now rewrite Hs.
Qed.

Lemma replace_ReplacedAll (old new s : str) :
  old <> [] -> ReplacedAll old new s (replace old new s).
Proof.
  intros H. induction s as [|t IH|c s Hs IH] using (scan_ind old H).
  - rewrite replace_nil by assumption. constructor.
  - rewrite replace_hit by assumption. now apply RA_hit.
  - rewrite replace_keep by assumption. now apply RA_keep.
Qed.

Lemma ReplacedAll_replace (old new s r : str) :
  old <> [] -> ReplacedAll old new s r -> r = replace old new s.
Proof.
  intros H HR. induction HR as [|s r _ IH|c s r Hs _ IH].
  - now rewrite replace_nil.
  - now rewrite replace_hit, IH.
  - now rewrite replace_keep, IH.
Qed.

(** Occurrences. *)
Lemma contains_nil_l (s : str) : contains [] s = true.
Proof. destruct s; reflexivity. Qed.

Lemma contains_startswith (p s : str) :
  startswith p s = true -> contains p s = true.
Proof. intros H. destruct s; simpl in *; now rewrite H. Qed.

Lemma contains_cons (p : str) c s :
  contains p s = true -> contains p (c :: s) = true.
Proof. intros H. cbn [contains]. rewrite H. apply orb_true_r. Qed.

Lemma contains_keep (p : str) c s :
  startswith p (c :: s) = false -> contains p (c :: s) = contains p s.
Proof. intros H. cbn [contains]. now rewrite H. Qed.

Lemma contains_intro (p pre post : str) :
  contains p (pre ++ p ++ post) = true.
Proof.
  induction pre as [|c pre IH].
  - cbn [app]. apply contains_startswith, startswith_app.
  - cbn [app]. now apply contains_cons.
Qed.

Lemma contains_inv (p s : str) :
  contains p s = true -> exists pre post, s = pre ++ p ++ post.
Proof.
  induction s as [|c s IH]; cbn [contains]; intros H.
  - rewrite orb_false_r in H. destruct (startswith_inv _ _ H) as [t Ht].
    exists [], t. exact Ht.
  - apply orb_true_iff in H as [H|H].
    + destruct (startswith_inv _ _ H) as [t Ht]. exists [], t. exact Ht.
    + destruct (IH H) as (pre & post & ->). now exists (c :: pre), post.
Qed.

Lemma contains_trans (m r s : str) :
  contains m r = true -> contains r s = true -> contains m s = true.
Proof.
  intros Hmr Hrs.
  destruct (contains_inv _ _ Hmr) as (a & b & ->).
  destruct (contains_inv _ _ Hrs) as (pre & post & ->).
  replace (pre ++ (a ++ m ++ b) ++ post)
    with ((pre ++ a) ++ m ++ (b ++ post))
    by (now rewrite <- !app_assoc).
  apply contains_intro.
Qed.

(** A string that contains another and differs from it is longer. *)
Lemma contains_longer (m r : str) :
  contains m r = true -> m <> r -> length m < length r.
Proof.
  intros H Hne. destruct (contains_inv _ _ H) as (a & b & ->).
  rewrite !length_app.
  destruct a as [|x a]; [|simpl; lia].
  destruct b as [|y b]; [|simpl; lia].
  exfalso. apply Hne. simpl. now rewrite app_nil_r.
Qed.

(** Without an occurrence there is nothing to replace. *)
Lemma replace_absent (old new s : str) :
  contains old s = false -> replace old new s = s.
Proof.
  intros H.
  assert (Hold : old <> []).
  { intros ->. now rewrite contains_nil_l in H. }
  induction s as [|c s IH].
  - now apply replace_nil.
  - cbn [contains] in H. apply orb_false_iff in H as [Hs H].
    rewrite replace_keep by assumption. f_equal. now apply IH.
Qed.

(** With an occurrence, the replacement text is in the result. *)
Lemma replace_contains_new (old new s : str) :
  old <> [] -> contains old s = true ->
  contains new (replace old new s) = true.
Proof.
  intros H. induction s as [|t IH|c s Hs IH] using (scan_ind old H); intros Hc.
  - destruct old; [congruence | discriminate].
  - rewrite replace_hit by assumption.
    apply contains_startswith, startswith_app.
  - rewrite replace_keep by assumption. apply contains_cons, IH.
    now rewrite contains_keep in Hc.
Qed.

Lemma replace_length_ge (old new s : str) :
  old <> [] -> length old <= length new ->
  length s <= length (replace old new s).
Proof.
  intros H Hlen. induction s as [|t IH|c s Hs IH] using (scan_ind old H).
  - now rewrite replace_nil.
  - rewrite replace_hit, !length_app by assumption. lia.
  - rewrite replace_keep by assumption. simpl. lia.
Qed.

Lemma replace_length_gt (old new s : str) :
  old <> [] -> length old < length new -> contains old s = true ->
  length s < length (replace old new s).
Proof.
  intros H Hlen. induction s as [|t IH|c s Hs IH] using (scan_ind old H); intros Hc.
  - destruct old; [congruence | discriminate].
  - rewrite replace_hit, !length_app by assumption.
    pose proof (replace_length_ge old new t H) as Hge. lia.
  - rewrite replace_keep by assumption.
    rewrite contains_keep in Hc by assumption. simpl. apply IH in Hc. lia.
Qed.

Lemma replace_empty_length (new s : str) :
  length (replace [] new s) = length new + length s * (1 + length new).
Proof.
  cbn [replace]. rewrite length_app. f_equal.
  induction s as [|c s IH]; [reflexivity|].
  cbn [flat_map]. rewrite length_app. cbn [length]. rewrite IH. lia.
Qed.

(** A second replacement changes the name again, when the replacement
    text contains the pattern and is not the pattern itself. *)
Lemma replace_again_differs (old new s : str) :
  contains old s = true -> contains old new = true -> old <> new ->
  replace old new (replace old new s) <> replace old new s.
Proof.
  intros Hs Hnew Hne Heq.
  pose proof (contains_longer _ _ Hnew Hne) as Hlen.
  apply (f_equal (@length ascii)) in Heq.
  destruct old as [|a old].
  - rewrite replace_empty_length in Heq. lia.
  - assert (H : a :: old <> []) by discriminate.
    pose proof (replace_contains_new _ new s H Hs) as Hc.
    pose proof (contains_trans _ _ _ Hnew Hc) as Hc'.
    pose proof (replace_length_gt _ new _ H Hlen Hc'). lia.
Qed.

(** Whitespace at the ends. *)
Lemma lstrip_spaces (ws s : str) :
  forallb isspace ws = true -> lstrip (ws ++ s) = lstrip s.
Proof.
  induction ws as [|c ws IH]; [reflexivity|].
  cbn [forallb]. intros H. apply andb_true_iff in H as [Hc H].
  cbn [app lstrip]. rewrite Hc. now apply IH.
Qed.

Lemma lstrip_all_spaces (ws : str) :
  forallb isspace ws = true -> lstrip ws = [].
Proof.
  intros H. rewrite <- (app_nil_r ws). now rewrite lstrip_spaces.
Qed.

Lemma lstrip_app (a b : str) :
  lstrip (a ++ b) =
  match lstrip a with
  | [] => lstrip b
  | _ :: _ => lstrip a ++ b
  end.
Proof.
  induction a as [|c a IH].
  - cbn. now destruct (lstrip b).
  - cbn [app lstrip]. destruct (isspace c); [exact IH | reflexivity].
Qed.

Lemma lstrip_head (s : str) :
  match lstrip s with
  | [] => True
  | c :: _ => isspace c = false
  end.
Proof.
  induction s as [|c s IH]; [exact I|].
  cbn [lstrip]. destruct (isspace c) eqn:Hc; [exact IH | exact Hc].
Qed.

Lemma lstrip_fix (s : str) :
  match s with [] => True | c :: _ => isspace c = false end ->
  lstrip s = s.
Proof. destruct s as [|c s]; [reflexivity|]. cbn. now intros ->. Qed.

Lemma forallb_rev {A} (f : A -> bool) (l : list A) :
  forallb f (rev l) = forallb f l.
Proof.
  induction l as [|x l IH]; [reflexivity|].
  cbn [rev forallb]. rewrite forallb_app, IH. cbn. 
  rewrite andb_true_r. apply andb_comm.
Qed.

Lemma rstrip_spaces (s ws : str) :
  forallb isspace ws = true -> rstrip (s ++ ws) = rstrip s.
Proof.
  intros H. unfold rstrip. rewrite rev_app_distr, lstrip_spaces; [reflexivity|].
  now rewrite forallb_rev.
Qed.

(** What [lstrip] removes is whitespace. *)
Lemma lstrip_split (s : str) :
  exists ws, s = ws ++ lstrip s /\ forallb isspace ws = true.
Proof.
  induction s as [|c s (ws & Hs & Hws)].
  - now exists [].
  - cbn [lstrip]. destruct (isspace c) eqn:Hc.
    + exists (c :: ws). cbn [List.app forallb]. rewrite Hc, Hws.
      split; [now f_equal | reflexivity].
    + now exists [].
Qed.

Lemma rstrip_split (s : str) :
  exists ws, s = rstrip s ++ ws /\ forallb isspace ws = true.
Proof.
  destruct (lstrip_split (rev s)) as (ws & Hs & Hws).
  exists (rev ws). split.
  - unfold rstrip. rewrite <- rev_app_distr, <- Hs. now rewrite rev_involutive.
  - now rewrite forallb_rev.
Qed.

(** A stripped text begins and ends with a character that is not
    whitespace, unless it is empty. *)
Lemma strip_first (s : str) :
  match strip s with
  | [] => True
  | c :: _ => isspace c = false
  end.
Proof.
  unfold strip.
  destruct (rstrip_split (lstrip s)) as (ws & Hs & _).
  pose proof (lstrip_head s) as Hh. rewrite Hs in Hh.
  destruct (rstrip (lstrip s)); [exact I | exact Hh].
Qed.

Lemma strip_last (s : str) :
  match rev (strip s) with
  | [] => True
  | c :: _ => isspace c = false
  end.
Proof.
  unfold strip, rstrip. rewrite rev_involutive. apply lstrip_head.
Qed.

Lemma strip_strip (s : str) : strip (strip s) = strip s.
Proof.
  unfold strip at 1. rewrite (lstrip_fix _ (strip_first s)).
  unfold rstrip. rewrite (lstrip_fix _ (strip_last s)). apply rev_involutive.
Qed.

Lemma strip_surrounding (ws1 core ws2 : str) :
  forallb isspace ws1 = true -> forallb isspace ws2 = true ->
  strip (ws1 ++ core ++ ws2) = strip core.
Proof.
  intros H1 H2. unfold strip. rewrite lstrip_spaces by assumption.
  rewrite lstrip_app. destruct (lstrip core) as [|c t] eqn:E.
  - now rewrite lstrip_all_spaces.
  - now rewrite rstrip_spaces.
Qed.

Lemma strip_all_spaces (ws : str) :
  forallb isspace ws = true -> strip ws = [].
Proof. intros H. unfold strip. now rewrite lstrip_all_spaces. Qed.

End StrFacts.

(** ** Facts about the drag-and-drop renamers *)

Import Batch Gui.

Section GuiFacts.

Context {P : Platform}.

Lemma log_extend_nil (a : FileRenamerApp) : log_extend [] a = a.
Proof. destruct a; unfold log_extend; simpl. now rewrite app_nil_r. Qed.

Lemma log_extend_append (l : log_line) (ls : list log_line) (a : FileRenamerApp) :
  log_extend ls (log_append l a) = log_extend (l :: ls) a.
Proof.
  unfold log_extend, log_append; simpl. now rewrite <- app_assoc.
Qed.

(** One turn of the loop, with the [try] resolved. *)
Lemma rename_one_eq (pattern replace : str) (n : nat) (file_path : str)
    (w : world P) (a : FileRenamerApp) :
  rename_one pattern replace n file_path w a =
  if occurs_in pattern file_path then
    let new_filename := Str.replace pattern replace (basename file_path) in
    let new_file_path := destination pattern replace file_path in
    match rename file_path new_file_path (fs w) with
    | (Return _, fs') =>
        (Return (n + 1),
         World fs' (renames w ++ [(file_path, new_file_path)]) (stdout w),
         log_append (Renamed (basename file_path) new_filename) a)
    | (Raise e, fs') =>
        (Return n,
         World fs' (renames w ++ [(file_path, new_file_path)]) (stdout w),
         log_append (FailedToRename (basename file_path) e) a)
    end
  else (Return n, w, a).
Proof.
  unfold rename_one, occurs_in, destination.
  destruct (Str.contains pattern (basename file_path)); [|reflexivity].
  unfold try_except, bind, os_rename, modify, ret. cbn.
  destruct (rename _ _ (fs w)) as [[[]|e] fs']; reflexivity.
Qed.

(** The loop returns, whatever [os.rename] does; every candidate in which
    the pattern occurs is handed to [os.rename] once, in order, and gets one
    log line. Nothing of this depends on the window. *)
Lemma rename_loop_spec (pattern replace : str) (fl : list str) :
  forall (n : nat) (w : world P),
  exists n' fs' lines,
    (forall a : FileRenamerApp,
       rename_loop pattern replace n fl w a =
         (Return n',
          World fs'
            (renames w ++
             map (fun file_path =>
                    (file_path, destination pattern replace file_path))
                 (filter (occurs_in pattern) fl))
            (stdout w),
          log_extend lines a))
    /\ Forall2 reports (filter (occurs_in pattern) fl) lines
    /\ n' <= n + length lines.
Proof.
  induction fl as [|file_path fl IH]; intros n w.
  - exists n, (fs w), []. split; [|split; [constructor | simpl; lia]].
    intros a. cbn. rewrite app_nil_r, log_extend_nil. now destruct w.
  - cbn [filter]. destruct (occurs_in pattern file_path) eqn:Hocc.
    + destruct (rename file_path (destination pattern replace file_path) (fs w))
        as [[[]|e] fs1] eqn:Hren.
      * destruct (IH (n + 1)
                    (World fs1
                       (renames w ++
                        [(file_path, destination pattern replace file_path)])
                       (stdout w)))
          as (n' & fs' & lines & Heq & Hrep & Hn).
        exists n', fs',
          (Renamed (basename file_path)
             (Str.replace pattern replace (basename file_path)) :: lines).
        split; [|split; [constructor; [left; eauto | exact Hrep]
                        | simpl; lia]].
        intros a. cbn [rename_loop]. unfold bind at 1.
        rewrite rename_one_eq, Hocc. cbv zeta. rewrite Hren, Heq.
        cbn [renames stdout map].
        now rewrite <- app_assoc, log_extend_append.
      * destruct (IH n
                    (World fs1
                       (renames w ++
                        [(file_path, destination pattern replace file_path)])
                       (stdout w)))
          as (n' & fs' & lines & Heq & Hrep & Hn).
        exists n', fs', (FailedToRename (basename file_path) e :: lines).
        split; [|split; [constructor; [right; eauto | exact Hrep]
                        | simpl; lia]].
        intros a. cbn [rename_loop]. unfold bind at 1.
        rewrite rename_one_eq, Hocc. cbv zeta. rewrite Hren, Heq.
        cbn [renames stdout map].
        now rewrite <- app_assoc, log_extend_append.
    + destruct (IH n w) as (n' & fs' & lines & Heq & Hrep & Hn).
      exists n', fs', lines. split; [|split; assumption].
      intros a. cbn [rename_loop]. unfold bind at 1.
      rewrite rename_one_eq, Hocc. apply Heq.
Qed.

Lemma clear_files_files (v : variant) (a : FileRenamerApp) :
  files (clear_files v a) = []
  /\ drop_area (clear_files v a) = []
  /\ file_count_label (clear_files v a) = 0
  /\ log_output (clear_files v a) = log_output a.
Proof. destruct v; cbn; auto. Qed.

(** [rename_files] by cases. *)
Lemma rename_files_no_files (v : variant) (w : world P) (a : FileRenamerApp) :
  files a = [] ->
  rename_files v w a = (Return tt, w, log_append NoFilesToRename a).
Proof.
  intros H. unfold rename_files, bind, get. now rewrite H.
Qed.

Lemma rename_files_empty_pattern (v : variant) (w : world P) (a : FileRenamerApp) :
  files a <> [] -> Str.strip (pattern_input a) = [] ->
  rename_files v w a = (Return tt, w, log_append PatternCannotBeEmpty a).
Proof.
  intros Hf Hp. unfold rename_files, bind, get.
  destruct (files a); [congruence|]. now rewrite Hp.
Qed.

Lemma rename_files_process (v : variant) (w : world P) (a : FileRenamerApp) :
  files a <> [] -> Str.strip (pattern_input a) <> [] ->
  rename_files v w a =
  let pattern := Str.strip (pattern_input a) in
  let replace := Str.strip (replace_input a) in
  match rename_loop pattern replace 0 (files a) w a with
  | (Return renamed_count, w', a') =>
      (Return tt, w', clear_files v (log_append (FilesRenamed renamed_count) a'))
  | (Raise e, w', a') => (Raise e, w', a')
  end.
Proof.
  intros Hf Hp. unfold rename_files. unfold bind at 1, get.
  destruct (files a) as [|f0 fl] eqn:Ef; [congruence|].
  destruct (Str.strip (pattern_input a)) as [|c0 pat] eqn:Ep; [congruence|].
  cbv zeta. unfold bind at 1.
  destruct (rename_loop _ _ 0 _ w a) as [[[n|e] w'] a']; reflexivity.
Qed.

(** The handler of the Process button always returns. *)
Lemma rename_files_returns (v : variant) (w : world P) (a : FileRenamerApp) :
  exists w' a', rename_files v w a = (Return tt, w', a').
Proof.
  destruct (files a) as [|f0 fl] eqn:Ef.
  - rewrite rename_files_no_files by assumption. eauto.
  - destruct (Str.strip (pattern_input a)) as [|c0 pat] eqn:Ep.
    + rewrite rename_files_empty_pattern by congruence. eauto.
    + rewrite rename_files_process by congruence. cbv zeta.
      destruct (rename_loop_spec (Str.strip (pattern_input a))
                  (Str.strip (replace_input a)) (files a) 0 w)
        as (n' & fs' & lines & Heq & _).
      rewrite Heq. eauto.
Qed.

(** *** The drop zone *)

Lemma in_files_In (file_path : str) (fl : list str) :
  in_files file_path fl = true <-> In file_path fl.
Proof.
  unfold in_files. rewrite existsb_exists. split.
  - intros (x & Hx & Heq). apply str_eqb_eq in Heq. now subst.
  - intros H. exists file_path. split; [exact H | apply str_eqb_refl].
Qed.

Lemma add_files_nil (a : FileRenamerApp) : add_files [] a = a.
Proof. destruct a; unfold add_files; simpl. now rewrite !app_nil_r. Qed.

Lemma subseq_In {A} (l1 l2 : list A) (x : A) :
  subseq l1 l2 -> In x l1 -> In x l2.
Proof.
  induction 1 as [|y l1 l2 _ IH|y l1 l2 _ IH]; simpl; intros Hin.
  - exact Hin.
  - destruct Hin as [->|Hin]; [now left | right; auto].
  - right; auto.
Qed.

(** The loop adds, behind the candidates already held and in the order
    offered, the offered paths that are files and are not yet held. *)
Lemma drop_loop_spec (w : world P) (us : list str) :
  forall (a : FileRenamerApp) (changed : bool),
  exists new,
    drop_loop w us (a, changed) =
      (add_files new a, match new with [] => changed | _ :: _ => true end)
    /\ subseq new us
    /\ (forall p, In p new -> ~ In p (files a) /\ isfile p (fs w) = true)
    /\ (NoDup (files a) -> NoDup (files a ++ new))
    /\ (forall p, In p us -> isfile p (fs w) = true -> In p (files a ++ new)).
Proof.
  induction us as [|file_path us IH]; intros a changed.
  - exists []. cbn [drop_loop]. rewrite add_files_nil, app_nil_r.
    repeat split; try constructor; try easy.
  - cbn [drop_loop].
    destruct (isfile file_path (fs w)) eqn:Hfile;
      [destruct (in_files file_path (files a)) eqn:Hin|]; cbn [andb negb].
    + (* already held *)
      destruct (IH a changed) as (new & Heq & Hsub & Hnew & Hnd & Hcov).
      exists new. repeat split; try assumption; try (now apply Hnew).
      * now constructor.
      * intros p [<-|Hp] Hf; [|now apply Hcov].
        apply in_or_app. left. now apply in_files_In.
    + (* taken *)
      destruct (IH (addItem file_path
                      (set_files (fun fl => fl ++ [file_path]) a)) true)
        as (new & Heq & Hsub & Hnew & Hnd & Hcov).
      cbn [files addItem set_files] in Hnew, Hnd, Hcov.
      assert (Hnotin : ~ In file_path (files a)).
      { intros Hc. apply in_files_In in Hc. congruence. }
      exists (file_path :: new). split; [|split; [|split; [|split]]].
      * rewrite Heq. unfold add_files, addItem, set_files. cbn.
        rewrite <- !app_assoc. cbn. now destruct new.
      * now constructor.
      * intros p [<-|Hp]; [now split|].
        destruct (Hnew p Hp) as [Hn Hf]. split; [|exact Hf].
        intros Hc. apply Hn, in_or_app. now left.
      * intros Hnd0.
        replace (files a ++ file_path :: new)
          with ((files a ++ [file_path]) ++ new)
          by (now rewrite <- app_assoc).
        apply Hnd. apply NoDup_app; repeat split.
        -- exact Hnd0.
        -- constructor; [easy | constructor].
        -- intros x Hx [<-|[]]. exact (Hnotin Hx).
      * intros p Hp Hf.
        replace (files a ++ file_path :: new)
          with ((files a ++ [file_path]) ++ new)
          by (now rewrite <- app_assoc).
        destruct Hp as [<-|Hp]; [|now apply Hcov].
        apply in_or_app. left. apply in_or_app. right. now left.
    + (* not a file *)
      destruct (IH a changed) as (new & Heq & Hsub & Hnew & Hnd & Hcov).
      exists new. repeat split; try assumption; try (now apply Hnew).
      * now constructor.
      * intros p [<-|Hp] Hf; [congruence | now apply Hcov].
Qed.

Lemma dropEvent_spec (v : variant) (event : drop_event) (w : world P)
    (a : FileRenamerApp) :
  exists new a',
    dropEvent v event w a = (Return tt, w, a')
    /\ files a' = files a ++ new
    /\ subseq new (urls event)
    /\ (forall p, In p new -> ~ In p (files a) /\ isfile p (fs w) = true)
    /\ (NoDup (files a) -> NoDup (files a'))
    /\ (v = PyQt5 \/ hasUrls event = true ->
        forall p, In p (urls event) -> isfile p (fs w) = true ->
                  In p (files a')).
Proof.
  destruct (drop_loop_spec w (urls event) a false)
    as (new & Heq & Hsub & Hnew & Hnd & Hcov).
  assert (Hskip : subseq (@nil str) (urls event)).
  { clear. induction (urls event); now constructor. }
  unfold dropEvent. destruct v.
  - rewrite Heq. exists new. eexists. split; [reflexivity|].
    cbn [files update_file_count add_files]. repeat split; auto; apply Hnew; auto.
  - destruct (hasUrls event) eqn:Hh.
    + rewrite Heq. exists new. eexists. split; [reflexivity|].
      assert (Hf : forall b : bool,
                 files (if b then update_preview (update_file_count (add_files new a))
                        else update_file_count (add_files new a))
                 = files a ++ new) by (now intros []).
      rewrite Hf. repeat split; auto; apply Hnew; auto.
    + exists [], a. rewrite app_nil_r.
      repeat split; auto; try easy.
      intros [Hv|Hv]; discriminate.
Qed.

End GuiFacts.

(** ** Facts about the batch script *)

Section BatchFacts.

Context {P : Platform}.

(** One file of the walk, with the [try] resolved. *)
Lemma process_file_eq (patterns : pydict) (root file : str)
    (w : world P) (b : batch) :
  process_file patterns root file w b =
  if Str.endswith (py ".png") file then
    let new_file_name := compute_new_name file patterns in
    let old_path := join root file in
    let new_path := join root new_file_name in
    if path_changes patterns (root, file) then
      match rename old_path new_path (fs w) with
      | (Return _, fs') =>
          let l := Processing file (RenamedTo new_file_name) in
          (Return tt,
           World fs' (renames w ++ [(old_path, new_path)]) (stdout w ++ [l]),
           Batch (rename_count b + 1) (skipped_count b)
                 (processed_paths b ++ [root]) (log b ++ [l]))
      | (Raise e, fs') =>
          let l := Processing file (Failed e) in
          (Return tt,
           World fs' (renames w ++ [(old_path, new_path)]) (stdout w ++ [l]),
           Batch (rename_count b) (skipped_count b)
                 (processed_paths b ++ [root]) (log b ++ [l]))
      end
    else
      let l := Processing file Skipped in
      (Return tt,
       World (fs w) (renames w) (stdout w ++ [l]),
       Batch (rename_count b) (skipped_count b + 1)
             (processed_paths b ++ [root]) (log b ++ [l]))
  else (Return tt, w, b).
Proof.
  unfold process_file, path_changes.
  destruct (Str.endswith (py ".png") file); [|reflexivity].
  cbv zeta.
  destruct (negb (str_eqb (join root file)
                    (join root (compute_new_name file patterns)))).
  - unfold try_except, bind, os_rename, modify, ret, print, log_write. cbn.
    destruct (rename _ _ (fs w)) as [[[]|e] fs']; reflexivity.
  - reflexivity.
Qed.

(** The loop over the files of one directory. *)
Lemma files_loop_spec (patterns : pydict) (root : str) (fl : list str) :
  forall (w : world P) (b : batch),
  exists fs' lines rc,
    for_each fl (process_file patterns root) w b =
      (Return tt,
       World fs'
         (renames w ++
          map (rename_args patterns)
              (filter (path_changes patterns) (pngs_of root fl)))
         (stdout w ++ lines),
       Batch rc
         (skipped_count b +
          length (filter (fun rf => negb (path_changes patterns rf))
                         (pngs_of root fl)))
         (processed_paths b ++ map fst (pngs_of root fl))
         (log b ++ lines))
    /\ Forall2 (line_for patterns) (pngs_of root fl) lines.
Proof.
  induction fl as [|file fl IH]; intros w b.
  - exists (fs w), [], (rename_count b). split; [|constructor].
    cbn. rewrite !app_nil_r, Nat.add_0_r. now destruct w, b.
  - cbn [for_each]. unfold bind at 1. rewrite process_file_eq.
    unfold pngs_of in *. cbn [filter].
    destruct (Str.endswith (py ".png") file) eqn:Hpng; [|apply IH].
    cbv zeta. cbn [map filter].
    destruct (path_changes patterns (root, file)) eqn:Hch.
    + destruct (rename _ _ (fs w)) as [[[]|e] fs1].
      * match goal with |- context [for_each fl _ ?w1 ?b1] =>
          destruct (IH w1 b1) as (fs' & lines & rc & Heq & Hl) end.
        eexists fs', (_ :: lines), rc. split.
        -- rewrite Heq. cbn [renames stdout skipped_count processed_paths log
                             map fst negb length].
           rewrite <- !app_assoc. reflexivity.
        -- constructor; [|exact Hl].
           unfold line_for. rewrite Hch. left. reflexivity.
      * match goal with |- context [for_each fl _ ?w1 ?b1] =>
          destruct (IH w1 b1) as (fs' & lines & rc & Heq & Hl) end.
        eexists fs', (_ :: lines), rc. split.
        -- rewrite Heq. cbn [renames stdout skipped_count processed_paths log
                             map fst negb length].
           rewrite <- !app_assoc. reflexivity.
        -- constructor; [|exact Hl].
           unfold line_for. rewrite Hch. right. eexists. reflexivity.
    + match goal with |- context [for_each fl _ ?w1 ?b1] =>
        destruct (IH w1 b1) as (fs' & lines & rc & Heq & Hl) end.
      exists fs', (Processing file Skipped :: lines), rc. split.
      * rewrite Heq. cbn [renames stdout skipped_count processed_paths log
                          map fst negb length].
        rewrite <- !app_assoc, <- Nat.add_assoc. reflexivity.
      * constructor; [|exact Hl].
        unfold line_for. rewrite Hch. reflexivity.
Qed.

(** The whole walk: the loop returns, whatever [os.rename] does; it prints
    and logs one line for each file taken up, in the order of the walk, and
    hands to [os.rename] exactly the files whose path changes. *)
Lemma walk_loop_spec (patterns : pydict) (walk : list (str * list str)) :
  forall (w : world P) (b : batch),
  exists fs' lines rc,
    walk_loop patterns walk w b =
      (Return tt,
       World fs'
         (renames w ++
          map (rename_args patterns)
              (filter (path_changes patterns) (png_files walk)))
         (stdout w ++ lines),
       Batch rc
         (skipped_count b +
          length (filter (fun rf => negb (path_changes patterns rf))
                         (png_files walk)))
         (processed_paths b ++ map fst (png_files walk))
         (log b ++ lines))
    /\ Forall2 (line_for patterns) (png_files walk) lines.
Proof.
  unfold walk_loop.
  induction walk as [|[root fl] walk IH]; intros w b.
  - exists (fs w), [], (rename_count b). split; [|constructor].
    cbn. rewrite !app_nil_r, Nat.add_0_r. now destruct w, b.
  - cbn [for_each]. unfold bind at 1.
    destruct (files_loop_spec patterns root fl w b)
      as (fs1 & lines1 & rc1 & Heq1 & Hl1).
    rewrite Heq1.
    match goal with |- context [for_each walk _ ?w1 ?b1] =>
      destruct (IH w1 b1) as (fs' & lines & rc & Heq & Hl) end.
    exists fs', (lines1 ++ lines), rc. split.
    + rewrite Heq. cbn [renames stdout skipped_count processed_paths log].
      cbn [png_files flat_map]. fold (png_files walk).
      rewrite !filter_app, !map_app, !length_app, <- !app_assoc.
      rewrite !Nat.add_assoc. reflexivity.
    + cbn [png_files flat_map]. apply Forall2_app; assumption.
Qed.

(** [load_rename_patterns] cannot get past [csv.reader]: it returns its
    [patterns] as they were, after printing the exception. *)
Lemma load_rename_patterns_eq (CONFIG_FILE : str)
    (csv_reader : str -> list (list str)) (w : world P) (patterns : pydict) :
  load_rename_patterns CONFIG_FILE csv_reader w patterns =
  (Return patterns,
   World (fs w) (renames w)
     (stdout w ++
      [ErrorReadingConfig
         match open_read CONFIG_FILE (fs w) with
         | Return _ => NameError "csv"
         | Raise e => e
         end]),
   patterns).
Proof.
  unfold load_rename_patterns, bind, try_except, py_open_read, get, print.
  destruct (open_read CONFIG_FILE (fs w)); reflexivity.
Qed.

(** Without rules every name stays, and every file taken up is skipped. *)
Lemma process_file_no_patterns (root file : str) (w : world P) (b : batch) :
  process_file [] root file w b =
  if Str.endswith (py ".png") file then
    (Return tt,
     World (fs w) (renames w) (stdout w ++ [Processing file Skipped]),
     Batch (rename_count b) (skipped_count b + 1)
           (processed_paths b ++ [root])
           (log b ++ [Processing file Skipped]))
  else (Return tt, w, b).
Proof.
  rewrite process_file_eq. unfold path_changes.
  cbn [compute_new_name fold_left]. now rewrite str_eqb_refl.
Qed.

Lemma files_loop_no_patterns (root : str) (fl : list str) :
  forall (w : world P) (b : batch),
  for_each fl (process_file [] root) w b =
  (Return tt,
   World (fs w) (renames w) (stdout w ++ skipped_lines (pngs_of root fl)),
   Batch (rename_count b)
         (skipped_count b + length (pngs_of root fl))
         (processed_paths b ++ map fst (pngs_of root fl))
         (log b ++ skipped_lines (pngs_of root fl))).
Proof.
  unfold skipped_lines, pngs_of.
  induction fl as [|file fl IH]; intros w b.
  - cbn. rewrite !app_nil_r, Nat.add_0_r. now destruct w, b.
  - cbn [for_each]. unfold bind at 1. rewrite process_file_no_patterns.
    cbn [filter]. destruct (Str.endswith (py ".png") file); [|apply IH].
    rewrite IH. cbn [fs renames stdout rename_count skipped_count
                     processed_paths log map fst snd length].
    rewrite <- !app_assoc, <- Nat.add_assoc. reflexivity.
Qed.

Lemma walk_loop_no_patterns (walk : list (str * list str)) :
  forall (w : world P) (b : batch),
  walk_loop [] walk w b =
  (Return tt,
   World (fs w) (renames w) (stdout w ++ skipped_lines (png_files walk)),
   Batch (rename_count b)
         (skipped_count b + length (png_files walk))
         (processed_paths b ++ map fst (png_files walk))
         (log b ++ skipped_lines (png_files walk))).
Proof.
  unfold walk_loop.
  induction walk as [|[root fl] walk IH]; intros w b.
  - cbn. rewrite !app_nil_r, Nat.add_0_r. now destruct w, b.
  - cbn [for_each]. unfold bind at 1.
    rewrite files_loop_no_patterns, IH.
    cbn [fs renames stdout rename_count skipped_count processed_paths log].
    cbn [png_files flat_map]. fold (png_files walk).
    unfold skipped_lines.
    rewrite !map_app, !length_app, <- !app_assoc, !Nat.add_assoc.
    reflexivity.
Qed.

End BatchFacts.

(** ** The properties of the rename engine *)

Section Claims.

Context {P : Platform}.

Lemma compute_new_name_one (file old new : str) :
  compute_new_name file [(old, new)] =
  if Str.contains old file then Str.replace old new file else file.
Proof. reflexivity. Qed.

Lemma compute_new_name_one_replace (file old new : str) :
  compute_new_name file [(old, new)] = Str.replace old new file.
Proof.
  rewrite compute_new_name_one.
  destruct (Str.contains old file) eqn:H; [reflexivity|].
  symmetry. now apply replace_absent.
Qed.

Lemma replace_same (p s : str) : Str.replace p p s = s.
Proof.
  destruct p as [|a p].
  - cbn. induction s as [|c s IH]; [reflexivity|]. cbn. now rewrite IH.
  - assert (H : a :: p <> []) by discriminate.
    induction s as [|t IH|c s Hs IH] using (scan_ind (a :: p) H).
    + now apply replace_nil.
    + rewrite replace_hit by assumption. now rewrite IH.
    + rewrite replace_keep by assumption. now rewrite IH.
Qed.

(** A new key goes behind the keys held; a key held keeps its place. *)
Lemma dict_set_new (d : pydict) (k v : str) :
  ~ In k (map fst d) -> dict_set d k v = d ++ [(k, v)].
Proof.
  induction d as [|[k' v'] d IH]; intros Hk; [reflexivity|].
  cbn [dict_set]. destruct (str_eqb k' k) eqn:E.
  - apply str_eqb_eq in E. subst k'. exfalso. apply Hk. now left.
  - cbn [List.app]. f_equal. apply IH. intros Hc. apply Hk. now right.
Qed.

Lemma dict_set_held (d : pydict) (k v : str) :
  In k (map fst d) -> map fst (dict_set d k v) = map fst d.
Proof.
  induction d as [|[k' v'] d IH]; intros Hk; [destruct Hk|].
  cbn [dict_set]. destruct (str_eqb k' k) eqn:E; [reflexivity|].
  cbn [map fst]. f_equal. apply IH.
  destruct Hk as [Hk|Hk]; [|exact Hk].
  cbn in Hk. subst k'. now rewrite str_eqb_refl in E.
Qed.

(** The comparison of characters is exact: an upper-case extension is not
    an occurrence of the lower-case pattern. *)
Lemma compute_new_name_exact_case :
  compute_new_name (py "wood_Diffuse.PNG") [(py ".png", py ".jpg")]
  = py "wood_Diffuse.PNG".
Proof. reflexivity. Qed.

(** C1. The new name is the old one with every occurrence of the pattern
    replaced, scanning from the left and going on behind each occurrence
    ([ReplacedAll] holds of the result and of nothing else); the window
    computes the same name for its single rule; and a rule set is applied
    rule after rule, in the order of the set, each rule to the name as the
    rules before it left it, whenever its pattern occurs there. The order
    of a rule set is the order in which its patterns were first put in. *)
Theorem compute_new_name_replaces_all :
  (forall file old new : str,
      old <> [] ->
      compute_new_name file [(old, new)] = Str.replace old new file
      /\ forall r, ReplacedAll old new file r
                   <-> r = compute_new_name file [(old, new)])
  /\ (forall pattern replace file_path : str,
        destination pattern replace file_path =
        join (dirname file_path)
             (compute_new_name (basename file_path) [(pattern, replace)]))
  /\ (forall (file : str) (rules1 : pydict) (old new : str) (rules2 : pydict),
        compute_new_name file (rules1 ++ (old, new) :: rules2) =
        let current := compute_new_name file rules1 in
        compute_new_name
          (if Str.contains old current
           then Str.replace old new current
           else current)
          rules2)
  /\ (forall (d : pydict) (k v : str),
        (~ In k (map fst d) -> dict_set d k v = d ++ [(k, v)])
        /\ (In k (map fst d) -> map fst (dict_set d k v) = map fst d)).
Proof.
  split; [|split; [|split]].
  - intros file old new Hold.
    split; [apply compute_new_name_one_replace|].
    intros r. rewrite compute_new_name_one_replace. split.
    + now apply ReplacedAll_replace.
    + intros ->. now apply replace_ReplacedAll.
  - intros pattern replace file_path. unfold destination.
    now rewrite compute_new_name_one_replace.
  - intros file rules1 old new rules2. unfold compute_new_name.
    now rewrite fold_left_app.
  - intros d k v. split; [apply dict_set_new | apply dict_set_held].
Qed.

(** C2, as the code has it. The batch script skips a file whose new name
    is its old name, without a call of [os.rename]; a rule whose
    replacement is its pattern gives such a name. The windows test for the
    occurrence of the pattern instead: a candidate without an occurrence is
    passed over, with no call and no log line, and a candidate with an
    occurrence is handed to [os.rename]. *)
Theorem unchanged_name_is_skipped_by_the_batch :
  (forall (patterns : pydict) (root file : str) (w : world P) (b : batch),
      Str.endswith (py ".png") file = true ->
      compute_new_name file patterns = file ->
      process_file patterns root file w b =
      (Return tt,
       World (fs w) (renames w) (stdout w ++ [Processing file Skipped]),
       Batch (rename_count b) (skipped_count b + 1)
             (processed_paths b ++ [root])
             (log b ++ [Processing file Skipped])))
  /\ (forall file pattern : str,
        compute_new_name file [(pattern, pattern)] = file)
  /\ (forall (pattern replace : str) (n : nat) (file_path : str)
             (w : world P) (a : FileRenamerApp),
        occurs_in pattern file_path = false ->
        rename_one pattern replace n file_path w a = (Return n, w, a))
  /\ (forall (pattern replace : str) (n : nat) (file_path : str)
             (w : world P) (a : FileRenamerApp),
        occurs_in pattern file_path = true ->
        exists n' fs' l,
          rename_one pattern replace n file_path w a =
          (Return n',
           World fs'
             (renames w ++
              [(file_path, destination pattern replace file_path)])
             (stdout w),
           log_append l a)
          /\ reports file_path l).
Proof.
  split; [|split; [|split]].
  - intros patterns root file w b Hpng Hname.
    rewrite process_file_eq, Hpng. cbv zeta.
    unfold path_changes. rewrite Hname, str_eqb_refl. reflexivity.
  - intros file pattern.
    rewrite compute_new_name_one_replace. apply replace_same.
  - intros pattern replace n file_path w a Hocc.
    now rewrite rename_one_eq, Hocc.
  - intros pattern replace n file_path w a Hocc.
    rewrite rename_one_eq, Hocc. cbv zeta.
    destruct (rename file_path _ (fs w)) as [[[]|e] fs'].
    + eexists _, fs', _. split; [reflexivity|]. left. eauto.
    + eexists _, fs', _. split; [reflexivity|]. right. eauto.
Qed.



(** C4, as the code has it. The batch loop prints and logs exactly one
    line for each file it takes up, in the order of the walk. A window
    writes one line for each candidate in whose name the pattern occurs, in
    the order of the candidates, and then the count; a candidate without an
    occurrence gets no line. *)
Theorem one_line_per_processed_file :
  (forall (patterns : pydict) (walk : list (str * list str))
          (w : world P) (b : batch),
      exists w' b' lines,
        walk_loop patterns walk w b = (Return tt, w', b')
        /\ stdout w' = stdout w ++ lines
        /\ log b' = log b ++ lines
        /\ Forall2 (line_for patterns) (png_files walk) lines)
  /\ (forall (v : variant) (w : world P) (a : FileRenamerApp),
        files a <> [] ->
        Str.strip (pattern_input a) <> [] ->
        exists w' a' lines n,
          rename_files v w a = (Return tt, w', a')
          /\ log_output a' = log_output a ++ lines ++ [FilesRenamed n]
          /\ Forall2 reports
               (filter (occurs_in (Str.strip (pattern_input a))) (files a))
               lines).
Proof.
  split.
  - intros patterns walk w b.
    destruct (walk_loop_spec patterns walk w b)
      as (fs' & lines & rc & Heq & Hl).
    rewrite Heq. eexists _, _, lines. split; [reflexivity|].
    cbn. auto.
  - intros v w a Hf Hp.
    rewrite rename_files_process by assumption. cbv zeta.
    destruct (rename_loop_spec (Str.strip (pattern_input a))
                (Str.strip (replace_input a)) (files a) 0 w)
      as (n' & fs' & lines & Heq & Hrep & _).
    rewrite Heq. eexists _, _, lines, n'. split; [reflexivity|].
    split; [|exact Hrep].
    destruct (clear_files_files v
                (log_append (FilesRenamed n') (log_extend lines a)))
      as (_ & _ & _ & ->).
    cbn. now rewrite <- app_assoc.
Qed.

(** C5. A failing [os.rename] is caught at the candidate: the loop writes
    the failure and the exception text for that candidate and goes on with
    the next one; the handler and the loops return whatever the calls do;
    and the calls made are those for all the candidates that qualify, the
    ones after a failure included. This holds in the windows and in the
    batch script. *)
Theorem rename_errors_are_caught :
  (forall (v : variant) (w : world P) (a : FileRenamerApp),
      exists w' a', rename_files v w a = (Return tt, w', a'))
  /\ (forall (pattern replace : str) (n : nat) (file_path : str)
             (rest : list str) (w : world P) (a : FileRenamerApp)
             (e : exn) (fs' : FS),
        occurs_in pattern file_path = true ->
        rename file_path (destination pattern replace file_path) (fs w)
          = (Raise e, fs') ->
        rename_loop pattern replace n (file_path :: rest) w a =
        rename_loop pattern replace n rest
          (World fs'
             (renames w ++
              [(file_path, destination pattern replace file_path)])
             (stdout w))
          (log_append (FailedToRename (basename file_path) e) a))
  /\ (forall (pattern replace : str) (n : nat) (fl : list str)
             (w : world P) (a : FileRenamerApp),
        exists n' w' a',
          rename_loop pattern replace n fl w a = (Return n', w', a')
          /\ renames w' =
             renames w ++
             map (fun file_path =>
                    (file_path, destination pattern replace file_path))
                 (filter (occurs_in pattern) fl))
  /\ (forall (patterns : pydict) (root file : str) (rest : list str)
             (w : world P) (b : batch) (e : exn) (fs' : FS),
        Str.endswith (py ".png") file = true ->
        path_changes patterns (root, file) = true ->
        rename (join root file)
               (join root (compute_new_name file patterns)) (fs w)
          = (Raise e, fs') ->
        for_each (file :: rest) (process_file patterns root) w b =
        for_each rest (process_file patterns root)
          (World fs'
             (renames w ++ [rename_args patterns (root, file)])
             (stdout w ++ [Processing file (Failed e)]))
          (Batch (rename_count b) (skipped_count b)
                 (processed_paths b ++ [root])
                 (log b ++ [Processing file (Failed e)])))
  /\ (forall (patterns : pydict) (walk : list (str * list str))
             (w : world P) (b : batch),
        exists w' b',
          walk_loop patterns walk w b = (Return tt, w', b')
          /\ renames w' =
             renames w ++
             map (rename_args patterns)
                 (filter (path_changes patterns) (png_files walk))).
Proof.
  split; [|split; [|split; [|split]]].
  - apply rename_files_returns.
  - intros pattern replace n file_path rest w a e fs' Hocc Hren.
    cbn [rename_loop]. unfold bind at 1.
    now rewrite rename_one_eq, Hocc; cbv zeta; rewrite Hren.
  - intros pattern replace n fl w a.
    destruct (rename_loop_spec pattern replace fl n w)
      as (n' & fs' & lines & Heq & _).
    rewrite Heq. eexists _, _, _. split; reflexivity.
  - intros patterns root file rest w b e fs' Hpng Hch Hren.
    cbn [for_each]. unfold bind at 1.
    rewrite process_file_eq, Hpng. cbv zeta. rewrite Hch, Hren. reflexivity.
  - intros patterns walk w b.
    destruct (walk_loop_spec patterns walk w b)
      as (fs' & lines & rc & Heq & _).
    rewrite Heq. eexists _, _. split; reflexivity.
Qed.

End Claims.

Section MoreClaims.

Context {P : Platform}.

Lemma contains_after_replace (m r s : str) :
  Str.contains m s = true -> Str.contains m r = true ->
  Str.contains m (Str.replace m r s) = true.
Proof.
  intros Hs Hr. destruct m as [|c m]; [apply contains_nil_l|].
  apply (contains_trans _ r); [exact Hr|].
  apply replace_contains_new; [discriminate | exact Hs].
Qed.

Lemma apply_again_contains (m r file : str) (k : nat) :
  Str.contains m file = true -> Str.contains m r = true ->
  Str.contains m (Nat.iter k (apply_again m r) file) = true.
Proof.
  intros Hs Hr. induction k as [|k IH]; [exact Hs|].
  rewrite Nat.iter_succ. unfold apply_again at 1.
  rewrite compute_new_name_one_replace.
  now apply contains_after_replace.
Qed.

(** C6, as the code has it. Once the pattern no longer occurs in the
    rewritten name, the rule leaves that name as it is: the batch script
    skips the file, a window passes the candidate over. When the pattern
    occurs in the name and in the replacement text, and the replacement is
    not the pattern itself, every further application changes the name
    again. When the replacement is the pattern, the name never changes. *)
Theorem reapplying_a_rule :
  (forall file m r : str,
      Str.contains m (Str.replace m r file) = false ->
      compute_new_name (Str.replace m r file) [(m, r)] = Str.replace m r file
      /\ (forall root : str,
            path_changes [(m, r)] (root, Str.replace m r file) = false)
      /\ (forall (root : str) (w : world P) (b : batch),
            Str.endswith (py ".png") (Str.replace m r file) = true ->
            process_file [(m, r)] root (Str.replace m r file) w b =
            (Return tt,
             World (fs w) (renames w)
               (stdout w ++ [Processing (Str.replace m r file) Skipped]),
             Batch (rename_count b) (skipped_count b + 1)
               (processed_paths b ++ [root])
               (log b ++ [Processing (Str.replace m r file) Skipped])))
      /\ (forall (n : nat) (file_path : str) (w : world P)
                 (a : FileRenamerApp),
            basename file_path = Str.replace m r file ->
            rename_one m r n file_path w a = (Return n, w, a)))
  /\ (forall file m r : str,
        Str.contains m file = true ->
        Str.contains m r = true ->
        m <> r ->
        compute_new_name (compute_new_name file [(m, r)]) [(m, r)]
        <> compute_new_name file [(m, r)])
  /\ (forall (file m r : str) (k : nat),
        Str.contains m file = true ->
        Str.contains m r = true ->
        m <> r ->
        Nat.iter (S (S k)) (apply_again m r) file
        <> Nat.iter (S k) (apply_again m r) file)
  /\ (forall (file m : str) (k : nat),
        Nat.iter k (apply_again m m) file = file).
Proof.
  split; [|split; [|split]].
  - intros file m r Habs.
    assert (Hname : compute_new_name (Str.replace m r file) [(m, r)]
                    = Str.replace m r file).
    { rewrite compute_new_name_one. now rewrite Habs. }
    split; [exact Hname | split; [|split]].
    + intros root. unfold path_changes.
      now rewrite Hname, str_eqb_refl.
    + intros root w b Hpng.
      rewrite process_file_eq, Hpng. cbv zeta.
      unfold path_changes. now rewrite Hname, str_eqb_refl.
    + intros n file_path w a Hbase.
      rewrite rename_one_eq. unfold occurs_in. now rewrite Hbase, Habs.
  - intros file m r Hfile Hr Hne.
    rewrite !compute_new_name_one_replace.
    now apply replace_again_differs.
  - intros file m r k Hfile Hr Hne.
    rewrite (Nat.iter_succ (S k)), (Nat.iter_succ k).
    pose proof (apply_again_contains m r file k Hfile Hr) as Hk.
    revert Hk. generalize (Nat.iter k (apply_again m r) file) as s.
    intros s Hk. unfold apply_again.
    rewrite !compute_new_name_one_replace.
    now apply replace_again_differs.
  - intros file m k. induction k as [|k IH]; [reflexivity|].
    rewrite Nat.iter_succ, IH. unfold apply_again.
    rewrite compute_new_name_one_replace. apply replace_same.
Qed.

(** *** The candidates of a window *)

Lemma handle_keeps_NoDup (v : variant) (e : event) (w : world P)
    (a : FileRenamerApp) :
  NoDup (files a) -> NoDup (files (snd (handle v e w a))).
Proof.
  intros Hnd. destruct e as [d|t|t| |]; cbn [handle].
  - destruct (dropEvent_spec v d w a)
      as (new & a' & Heq & _ & _ & _ & Hkeep & _).
    rewrite Heq. now apply Hkeep.
  - unfold modify. cbn [snd]. now destruct v.
  - unfold modify. cbn [snd]. now destruct v.
  - destruct (files a) as [|f0 fl] eqn:Ef.
    + rewrite rename_files_no_files by assumption. cbn. rewrite Ef. constructor.
    + destruct (Str.strip (pattern_input a)) as [|c0 pat] eqn:Ep.
      * rewrite rename_files_empty_pattern by congruence. cbn. now rewrite Ef.
      * rewrite rename_files_process by congruence. cbv zeta.
        destruct (rename_loop_spec (Str.strip (pattern_input a))
                    (Str.strip (replace_input a)) (files a) 0 w)
          as (n' & fs' & lines & Heq & _).
        rewrite Heq. cbn [snd].
        destruct (clear_files_files v
                    (log_append (FilesRenamed n') (log_extend lines a)))
          as (-> & _). constructor.
  - unfold modify. cbn [snd].
    destruct (clear_files_files v a) as (-> & _). constructor.
Qed.

Lemma session_keeps_NoDup (v : variant) (es : list event) :
  forall (w : world P) (a : FileRenamerApp),
  NoDup (files a) -> NoDup (files (snd (session v es w a))).
Proof.
  unfold session. induction es as [|e es IH]; intros w a Hnd.
  - exact Hnd.
  - cbn [for_each]. unfold bind at 1.
    pose proof (handle_keeps_NoDup v e w a Hnd) as H1.
    destruct (handle v e w a) as [[[[]|x] w1] a1]; cbn [snd] in H1.
    + now apply IH.
    + exact H1.
Qed.

(** C7. Whatever is dropped, typed and clicked, in any order, the
    candidates of a window are pairwise different paths. A drop puts the
    new candidates behind the ones already held, in the order in which
    they were offered, and leaves the ones held where they are; a path
    already held is not taken again, so that the same path dropped twice
    gives one candidate. *)
Theorem candidates_are_deduplicated :
  (forall (v : variant) (es : list event) (w : world P),
      NoDup (files (snd (session v es w initUI))))
  /\ (forall (v : variant) (event : drop_event) (w : world P)
             (a : FileRenamerApp),
        exists new,
          files (snd (dropEvent v event w a)) = files a ++ new
          /\ subseq new (urls event)
          /\ (NoDup (files a) -> NoDup (files a ++ new)))
  /\ (forall (v : variant) (h : bool) (file_path : str) (w : world P)
             (a : FileRenamerApp),
        In file_path (files a) ->
        files (snd (dropEvent v (DropEvent h [file_path]) w a)) = files a)
  /\ (forall (v : variant) (file_path : str) (w : world P),
        isfile file_path (fs w) = true ->
        files (snd (session v
                      [Drop (DropEvent true [file_path]);
                       Drop (DropEvent true [file_path])] w initUI))
        = [file_path]
        /\ files (snd (dropEvent v (DropEvent true [file_path; file_path])
                         w initUI))
           = [file_path]).
Proof.
  split; [|split; [|split]].
  - intros v es w. apply session_keeps_NoDup. constructor.
  - intros v event w a.
    destruct (dropEvent_spec v event w a)
      as (new & a' & Heq & Hf & Hsub & _ & Hnd & _).
    exists new. rewrite Heq. cbn [snd]. rewrite <- Hf. auto.
  - intros v h file_path w a Hin.
    destruct (dropEvent_spec v (DropEvent h [file_path]) w a)
      as (new & a' & Heq & Hf & Hsub & Hnew & _).
    rewrite Heq. cbn [snd]. rewrite Hf.
    destruct new as [|p new]; [apply app_nil_r|].
    exfalso. destruct (Hnew p (or_introl eq_refl)) as [Hn _]. apply Hn.
    assert (Hp : In p [file_path]).
    { apply (subseq_In _ _ p Hsub). now left. }
    destruct Hp as [<-|[]]. exact Hin.
  - intros v file_path w Hfile.
    unfold session. cbn [for_each handle]. unfold bind, dropEvent, ret.
    destruct v; cbn; rewrite Hfile; cbn;
      rewrite ?Hfile, ?str_eqb_refl; cbn; auto.
Qed.

(** C8. Process either only writes its complaint to the log, when there
    are no candidates or the stripped pattern is empty, and then the
    candidates, their rows and the outside world are as before; or it runs
    the loop and ends with no candidates, no rows and a count of zero,
    whatever the calls of [os.rename] did. It returns in every case. *)
Theorem process_rejects_or_clears (v : variant) (w : world P)
    (a : FileRenamerApp) :
  exists w' a',
    rename_files v w a = (Return tt, w', a')
    /\ (files a = [] \/ Str.strip (pattern_input a) = [] ->
        w' = w /\ files a' = files a /\ drop_area a' = drop_area a)
    /\ (files a <> [] -> Str.strip (pattern_input a) <> [] ->
        files a' = [] /\ drop_area a' = [] /\ file_count_label a' = 0).
Proof.
  destruct (files a) as [|f0 fl] eqn:Ef.
  - rewrite rename_files_no_files by assumption.
    eexists _, _. split; [reflexivity|]. split; [|congruence].
    intros _. cbn. auto.
  - destruct (Str.strip (pattern_input a)) as [|c0 pat] eqn:Ep.
    + rewrite rename_files_empty_pattern by congruence.
      eexists _, _. split; [reflexivity|]. split; [|congruence].
      intros _. cbn. auto.
    + rewrite rename_files_process by congruence. cbv zeta.
      destruct (rename_loop_spec (Str.strip (pattern_input a))
                  (Str.strip (replace_input a)) (files a) 0 w)
        as (n' & fs' & lines & Heq & _).
      rewrite <- Ef, Heq.
      eexists _, _. split; [reflexivity|]. split.
      * intros [H|H]; congruence.
      * intros _ _.
        destruct (clear_files_files v
                    (log_append (FilesRenamed n') (log_extend lines a)))
          as (H1 & H2 & H3 & _). auto.
Qed.

(** C9. [load_rename_patterns] always returns, with an empty mapping and
    after printing the exception: the one of [open], or else the
    [NameError] for [csv]. With an empty mapping the loop leaves every name
    as it is: each file taken up is printed and logged as skipped and
    counted as such, and [os.rename] is not called. The script as a whole
    never calls [os.rename]. *)
Theorem load_rename_patterns_returns_no_rule :
  (forall (CONFIG_FILE : str) (csv_reader : str -> list (list str))
          (w : world P),
      exists e,
        load_rename_patterns CONFIG_FILE csv_reader w [] =
        (Return [],
         World (fs w) (renames w) (stdout w ++ [ErrorReadingConfig e]),
         [])
        /\ (forall csvfile, open_read CONFIG_FILE (fs w) = Return csvfile ->
                            e = NameError "csv")
        /\ (forall x, open_read CONFIG_FILE (fs w) = Raise x -> e = x))
  /\ (forall (walk : list (str * list str)) (w : world P) (b : batch),
        let lines := skipped_lines (png_files walk) in
        walk_loop [] walk w b =
        (Return tt,
         World (fs w) (renames w) (stdout w ++ lines),
         Batch (rename_count b)
               (skipped_count b + length (png_files walk))
               (processed_paths b ++ map fst (png_files walk))
               (log b ++ lines)))
  /\ (forall (CONFIG_FILE LOG_FILE : str)
             (csv_reader : str -> list (list str))
             (walk : list (str * list str)) (w : world P) (b : batch),
        renames (snd (fst (Batch.rename_files CONFIG_FILE LOG_FILE
                             csv_reader walk w b)))
        = renames w).
Proof.
  split; [|split].
  - intros CONFIG_FILE csv_reader w.
    rewrite load_rename_patterns_eq. eexists. split; [reflexivity|].
    split.
    + intros csvfile ->. reflexivity.
    + intros x ->. reflexivity.
  - intros walk w b. apply walk_loop_no_patterns.
  - intros CONFIG_FILE LOG_FILE csv_reader walk w b.
    unfold Batch.rename_files. unfold bind at 1. unfold call.
    rewrite load_rename_patterns_eq.
    unfold rename_with. unfold bind at 1. unfold py_open_write.
    cbn [fs renames stdout].
    destruct (open_write LOG_FILE (fs w)) as [[[]|e] fs1]; [|reflexivity].
    unfold bind at 1. unfold log_write at 1, modify.
    unfold bind at 1. rewrite walk_loop_no_patterns.
    reflexivity.
Qed.

(** What [strip] takes away is whitespace at the two ends, and nothing
    else. *)
Lemma strip_decompose (s : str) :
  exists ws1 ws2,
    s = ws1 ++ Str.strip s ++ ws2
    /\ forallb Str.isspace ws1 = true
    /\ forallb Str.isspace ws2 = true.
Proof.
  destruct (lstrip_split s) as (ws1 & Hs1 & Hws1).
  destruct (rstrip_split (Str.lstrip s)) as (ws2 & Hs2 & Hws2).
  exists ws1, ws2. split; [|split; assumption].
  unfold Str.strip. now rewrite <- Hs2.
Qed.

(** C10, as the code has it. [strip] takes the whitespace off the two ends
    of a text and nothing else; what is left neither begins nor ends with
    whitespace. The handler of Process works on the stripped texts only:
    run with the texts as typed, it makes the same calls, writes the same
    log and leaves the same window as run with the stripped texts; its
    calls are for the candidates in whose name the stripped pattern occurs,
    the new name made with the stripped texts. A pattern of whitespace only
    is answered, when there are candidates, with the complaint about the
    empty pattern; without candidates the answer is that there are no
    files, whatever the pattern. *)
Theorem texts_are_stripped :
  (forall ws1 core ws2 : str,
      forallb Str.isspace ws1 = true ->
      forallb Str.isspace ws2 = true ->
      Str.strip (ws1 ++ core ++ ws2) = Str.strip core)
  /\ (forall s : str,
        match Str.strip s with
        | [] => True
        | c :: _ => Str.isspace c = false
        end
        /\ match rev (Str.strip s) with
           | [] => True
           | c :: _ => Str.isspace c = false
           end)
  /\ (forall (v : variant) (w : world P) (a : FileRenamerApp)
             (pattern replace : str),
        exists w' a',
          rename_files v w
            (setText_pattern pattern (setText_replace replace a)) =
          (Return tt, w',
           setText_pattern pattern (setText_replace replace a'))
          /\ rename_files v w
               (setText_pattern (Str.strip pattern)
                  (setText_replace (Str.strip replace) a)) =
             (Return tt, w',
              setText_pattern (Str.strip pattern)
                (setText_replace (Str.strip replace) a')))
  /\ (forall (v : variant) (w : world P) (a : FileRenamerApp),
        files a <> [] ->
        forallb Str.isspace (pattern_input a) = true ->
        rename_files v w a =
        (Return tt, w, log_append PatternCannotBeEmpty a))
  /\ (forall s : str,
        exists ws1 ws2,
          s = ws1 ++ Str.strip s ++ ws2
          /\ forallb Str.isspace ws1 = true
          /\ forallb Str.isspace ws2 = true)
  /\ (forall (v : variant) (w : world P) (a : FileRenamerApp),
        files a = [] ->
        rename_files v w a = (Return tt, w, log_append NoFilesToRename a))
  /\ (forall (v : variant) (w : world P) (a : FileRenamerApp),
        files a <> [] ->
        Str.strip (pattern_input a) <> [] ->
        exists w' a',
          rename_files v w a = (Return tt, w', a')
          /\ renames w' =
             renames w ++
             map (fun file_path =>
                    (file_path,
                     destination (Str.strip (pattern_input a))
                       (Str.strip (replace_input a)) file_path))
                 (filter (occurs_in (Str.strip (pattern_input a)))
                         (files a))).
Proof.
  split; [|split; [|split; [|split; [|split; [|split]]]]].
  - apply strip_surrounding.
  - intros s. split; [apply strip_first | apply strip_last].
  - intros v w a pattern replace.
    destruct (files a) as [|f0 fl] eqn:Ef.
    + exists w, (log_append NoFilesToRename a).
      split; now rewrite rename_files_no_files by exact Ef.
    + destruct (Str.strip pattern) as [|c0 pat] eqn:Ep.
      * exists w, (log_append PatternCannotBeEmpty a).
        split; rewrite rename_files_empty_pattern;
          cbn [files pattern_input setText_pattern setText_replace];
          rewrite ?Ep; try reflexivity; try congruence.
      * assert (Hne : Str.strip pattern <> []) by congruence.
        rewrite <- Ep. clear Ep c0 pat.
        destruct (rename_loop_spec (Str.strip pattern) (Str.strip replace)
                    (files a) 0 w)
          as (n' & fs' & lines & Heq & _).
        eexists _,
          (clear_files v (log_append (FilesRenamed n') (log_extend lines a))).
        split; rewrite rename_files_process;
          cbn [files pattern_input replace_input setText_pattern
               setText_replace];
          rewrite ?strip_strip; try congruence;
          cbv zeta; rewrite Heq; destruct v; reflexivity.
  - intros v w a Hf Hws.
    apply rename_files_empty_pattern; [exact Hf|].
    now apply strip_all_spaces.
  - apply strip_decompose.
  - intros v w a Hf. now apply rename_files_no_files.
  - intros v w a Hf Hp.
    rewrite rename_files_process by assumption. cbv zeta.
    destruct (rename_loop_spec (Str.strip (pattern_input a))
                (Str.strip (replace_input a)) (files a) 0 w)
      as (n' & fs' & lines & Heq & _).
    rewrite Heq. eexists _, _. split; reflexivity.
Qed.

End MoreClaims.

(** ** Further properties of the windows *)

Section WindowInvariants.

Context {P : Platform}.

Lemma drop_loop_rows (w : world P) (us : list str) :
  forall (a : FileRenamerApp) (changed : bool),
  drop_area a = files a ->
  drop_area (fst (drop_loop w us (a, changed)))
  = files (fst (drop_loop w us (a, changed))).
Proof.
  intros a changed Hrows.
  destruct (drop_loop_spec w us a changed) as (new & Heq & _).
  rewrite Heq. cbn. now rewrite Hrows.
Qed.

Lemma handle_shows_candidates (v : variant) (e : event) (w : world P)
    (a : FileRenamerApp) :
  shows_candidates a -> shows_candidates (snd (handle v e w a)).
Proof.
  intros [Hrows Hcount]. destruct e as [d|t|t| |]; cbn [handle].
  - unfold dropEvent.
    pose proof (drop_loop_rows w (urls d) a false Hrows) as Hr.
    destruct (drop_loop w (urls d) (a, false)) as [a' changed].
    cbn [fst] in Hr.
    destruct v; [|destruct (hasUrls d); [destruct changed|]];
      cbn; split; auto.
  - unfold modify. cbn [snd]. destruct v; split; assumption.
  - unfold modify. cbn [snd]. destruct v; split; assumption.
  - destruct (files a) as [|f0 fl] eqn:Ef.
    + rewrite rename_files_no_files by assumption.
      unfold shows_candidates. cbn. rewrite Ef. now split.
    + destruct (Str.strip (pattern_input a)) as [|c0 pat] eqn:Ep.
      * rewrite rename_files_empty_pattern by congruence.
        unfold shows_candidates. cbn. rewrite Ef. now split.
      * rewrite rename_files_process by congruence. cbv zeta.
        destruct (rename_loop_spec (Str.strip (pattern_input a))
                    (Str.strip (replace_input a)) (files a) 0 w)
          as (n' & fs' & lines & Heq & _).
        rewrite Heq. cbn [snd].
        destruct (clear_files_files v
                    (log_append (FilesRenamed n') (log_extend lines a)))
          as (H1 & H2 & H3 & _).
        unfold shows_candidates. now rewrite H1, H2, H3.
  - unfold modify. cbn [snd].
    destruct (clear_files_files v a) as (H1 & H2 & H3 & _).
    unfold shows_candidates. now rewrite H1, H2, H3.
Qed.

Lemma session_shows_candidates (v : variant) (es : list event) :
  forall (w : world P) (a : FileRenamerApp),
  shows_candidates a -> shows_candidates (snd (session v es w a)).
Proof.
  unfold session. induction es as [|e es IH]; intros w a Ha.
  - exact Ha.
  - cbn [for_each]. unfold bind at 1.
    pose proof (handle_shows_candidates v e w a Ha) as H1.
    destruct (handle v e w a) as [[[[]|x] w1] a1]; cbn [snd] in H1.
    + now apply IH.
    + exact H1.
Qed.

(** X1. After any sequence of drops, typing, Process and Cancel, the
    rows of the list widget are the candidates held, in the same order,
    and the label of the window shows their number. *)
Theorem window_shows_its_candidates (v : variant) (es : list event)
    (w : world P) :
  drop_area (snd (session v es w initUI))
  = files (snd (session v es w initUI))
  /\ file_count_label (snd (session v es w initUI))
     = length (files (snd (session v es w initUI))).
Proof.
  apply (session_shows_candidates v es w initUI). split; reflexivity.
Qed.

(** *** The live preview *)

Lemma handle_keeps_preview (e : event) (w : world P) (a : FileRenamerApp) :
  preview_is_current a -> preview_is_current (snd (handle PyQt6 e w a)).
Proof.
  unfold preview_is_current. intros Hcur.
  destruct e as [d|t|t| |]; cbn [handle].
  - unfold dropEvent. destruct (hasUrls d); [|exact Hcur].
    destruct (drop_loop_spec w (urls d) a false) as (new & Heq & _).
    rewrite Heq. destruct new as [|p new].
    + rewrite add_files_nil. cbn [snd]. exact Hcur.
    + reflexivity.
  - reflexivity.
  - reflexivity.
  - destruct (files a) as [|f0 fl] eqn:Ef.
    + rewrite rename_files_no_files by assumption.
      cbn in *. now rewrite Ef in *.
    + destruct (Str.strip (pattern_input a)) as [|c0 pat] eqn:Ep.
      * rewrite rename_files_empty_pattern by congruence.
        cbn in *. now rewrite Ef in *.
      * rewrite rename_files_process by congruence. cbv zeta.
        destruct (rename_loop_spec (Str.strip (pattern_input a))
                    (Str.strip (replace_input a)) (files a) 0 w)
          as (n' & fs' & lines & Heq & _).
        rewrite Heq. reflexivity.
  - reflexivity.
Qed.

(** X2. In the PyQt6 window, after any sequence of events, the live
    preview is up to date: it is what [update_preview] computes from the
    candidates held and the two texts as typed, one line for each
    candidate. *)
Theorem preview_is_kept_current (es : list event) (w : world P) :
  preview_is_current (snd (session PyQt6 es w initUI))
  /\ length (preview_area (snd (session PyQt6 es w initUI)))
     = length (files (snd (session PyQt6 es w initUI))).
Proof.
  assert (H : forall (w : world P) (a : FileRenamerApp),
             preview_is_current a ->
             preview_is_current (snd (session PyQt6 es w a))).
  { unfold session. induction es as [|e es IH]; intros w0 a Ha.
    - exact Ha.
    - cbn [for_each]. unfold bind at 1.
      pose proof (handle_keeps_preview e w0 a Ha) as H1.
      destruct (handle PyQt6 e w0 a) as [[[[]|x] w1] a1]; cbn [snd] in H1.
      + now apply IH.
      + exact H1. }
  assert (Hc : preview_is_current (snd (session PyQt6 es w initUI)))
    by (apply H; reflexivity).
  split; [exact Hc|].
  rewrite Hc. cbn. apply length_map.
Qed.

Lemma calls_of_preview_eq (pattern replace : str) (fl : list str) :
  calls_of_preview fl
    (map (fun file_path =>
            if Str.contains pattern (basename file_path)
            then WillRename (basename file_path)
                   (Str.replace pattern replace (basename file_path))
            else NoChange (basename file_path))
         fl)
  = map (fun file_path => (file_path, destination pattern replace file_path))
        (filter (occurs_in pattern) fl).
Proof.
  induction fl as [|file_path fl IH]; [reflexivity|].
  cbn [map filter calls_of_preview]. unfold occurs_in at 1.
  destruct (Str.contains pattern (basename file_path));
    cbn [map calls_of_preview]; now rewrite IH.
Qed.

(** X3. When the two texts are typed without whitespace around them and
    the pattern is not empty, Process calls [os.rename] exactly as the
    preview announces: for the candidates shown with a new name, in their
    order, with that name in the folder of the candidate, and for no
    other. *)
Theorem preview_predicts_the_renames (w : world P) (a : FileRenamerApp) :
  files a <> [] ->
  pattern_input a <> [] ->
  Str.strip (pattern_input a) = pattern_input a ->
  Str.strip (replace_input a) = replace_input a ->
  exists w' a',
    rename_files PyQt6 w a = (Return tt, w', a')
    /\ renames w' =
       renames w ++
       calls_of_preview (files a) (preview_area (update_preview a)).
Proof.
  intros Hf Hp Hsp Hsr.
  rewrite rename_files_process by congruence. cbv zeta.
  rewrite Hsp, Hsr.
  destruct (rename_loop_spec (pattern_input a) (replace_input a)
              (files a) 0 w)
    as (n' & fs' & lines & Heq & _).
  rewrite Heq. eexists _, _. split; [reflexivity|].
  cbn [renames]. f_equal. symmetry.
  exact (calls_of_preview_eq (pattern_input a) (replace_input a) (files a)).
Qed.

(** X4. With an empty pattern field the preview shows every candidate as
    renamed, the replacement text put before every character of the name
    and at its end, although Process rejects the empty pattern. *)
Theorem preview_of_the_empty_pattern (a : FileRenamerApp) :
  pattern_input a = [] ->
  preview_area (update_preview a)
  = map (fun file_path =>
           WillRename (basename file_path)
             (replace_input a
              ++ flat_map (fun c => c :: replace_input a)
                          (basename file_path)))
        (files a)
  /\ forall w : world P,
       files a <> [] ->
       rename_files PyQt6 w a
       = (Return tt, w, log_append PatternCannotBeEmpty a).
Proof.
  intros Hp. split.
  - cbn. rewrite Hp. apply map_ext. intros file_path.
    now rewrite contains_nil_l.
  - intros w Hf. apply rename_files_empty_pattern; [exact Hf|].
    now rewrite Hp.
Qed.

(** *** What the handlers do to the world and to the log *)

(** X5. Dropping, typing and Cancel never touch the world: a sequence of
    events without Process returns with the file system as it was and
    without a call of [os.rename]. *)
Theorem only_process_touches_the_files (v : variant) (es : list event) :
  forall (w : world P) (a : FileRenamerApp),
  ~ In Process es ->
  exists a', session v es w a = (Return tt, w, a').
Proof.
  unfold session. induction es as [|e es IH]; intros w a Hnp.
  - now exists a.
  - cbn [for_each]. unfold bind at 1.
    assert (He : exists a1, handle v e w a = (Return tt, w, a1)).
    { destruct e as [d|t|t| |]; cbn [handle].
      - destruct (dropEvent_spec v d w a) as (new & a1 & Heq & _).
        now exists a1.
      - unfold modify. eauto.
      - unfold modify. eauto.
      - exfalso. apply Hnp. now left.
      - unfold modify. eauto. }
    destruct He as [a1 ->]. apply IH.
    intros Hc. apply Hnp. now right.
Qed.

Lemma handle_extends_log (v : variant) (e : event) (w : world P)
    (a : FileRenamerApp) :
  exists w' a' ls,
    handle v e w a = (Return tt, w', a')
    /\ log_output a' = log_output a ++ ls.
Proof.
  destruct e as [d|t|t| |]; cbn [handle].
  - unfold dropEvent.
    destruct (drop_loop_spec w (urls d) a false) as (new & Heq & _).
    destruct v; [|destruct (hasUrls d)]; rewrite ?Heq;
      eexists _, _, []; (split; [reflexivity|]);
      rewrite app_nil_r; try reflexivity.
    now destruct new.
  - unfold modify. eexists _, _, []. split; [reflexivity|].
    rewrite app_nil_r. now destruct v.
  - unfold modify. eexists _, _, []. split; [reflexivity|].
    rewrite app_nil_r. now destruct v.
  - destruct (files a) as [|f0 fl] eqn:Ef.
    + rewrite rename_files_no_files by assumption.
      eexists _, _, [_]. split; reflexivity.
    + destruct (Str.strip (pattern_input a)) as [|c0 pat] eqn:Ep.
      * rewrite rename_files_empty_pattern by congruence.
        eexists _, _, [_]. split; reflexivity.
      * rewrite rename_files_process by congruence. cbv zeta.
        destruct (rename_loop_spec (Str.strip (pattern_input a))
                    (Str.strip (replace_input a)) (files a) 0 w)
          as (n' & fs' & lines & Heq & _).
        rewrite Heq. eexists _, _, (lines ++ [FilesRenamed n']).
        split; [reflexivity|].
        destruct (clear_files_files v
                    (log_append (FilesRenamed n') (log_extend lines a)))
          as (_ & _ & _ & ->).
        cbn. now rewrite <- app_assoc.
  - unfold modify. eexists _, _, []. split; [reflexivity|].
    rewrite app_nil_r.
    now destruct (clear_files_files v a) as (_ & _ & _ & ->).
Qed.

(** X6. No sequence of events makes a handler raise, and none removes a
    line from the log panel: what the log holds afterwards is what it held
    before, with lines added at the end. Cancel and Process clear the
    candidates, not the log. *)
Theorem log_only_grows (v : variant) (es : list event) :
  forall (w : world P) (a : FileRenamerApp),
  exists w' a' ls,
    session v es w a = (Return tt, w', a')
    /\ log_output a' = log_output a ++ ls.
Proof.
  unfold session. induction es as [|e es IH]; intros w a.
  - exists w, a, []. split; [reflexivity | now rewrite app_nil_r].
  - cbn [for_each]. unfold bind at 1.
    destruct (handle_extends_log v e w a) as (w1 & a1 & ls1 & -> & Hl1).
    destruct (IH w1 a1) as (w' & a' & ls & Heq & Hl).
    exists w', a', (ls1 ++ ls). split; [exact Heq|].
    now rewrite Hl, Hl1, <- app_assoc.
Qed.

(** *** The count of a run, and what a run leaves behind *)

Lemma rename_loop_count (pattern replace : str) (fl : list str) :
  forall (n : nat) (w : world P) (a : FileRenamerApp),
  exists w' lines,
    rename_loop pattern replace n fl w a =
      (Return (n + length (filter is_renamed lines)), w',
       log_extend lines a)
    /\ length (renames w') = length (renames w) + length lines
    /\ length lines
       = length (filter is_renamed lines)
         + length (filter is_failed_to_rename lines).
Proof.
  induction fl as [|file_path fl IH]; intros n w a.
  - exists w, []. cbn. rewrite log_extend_nil, !Nat.add_0_r. auto.
  - cbn [rename_loop]. unfold bind at 1. rewrite rename_one_eq.
    destruct (occurs_in pattern file_path); [|apply IH].
    cbv zeta. destruct (rename file_path _ (fs w)) as [[[]|e] fs1].
    + match goal with |- context [rename_loop _ _ ?n1 fl ?w1 ?a1] =>
        destruct (IH n1 w1 a1) as (w' & lines & Heq & Hc & Hl) end.
      exists w', (Renamed (basename file_path)
                    (Str.replace pattern replace (basename file_path))
                  :: lines).
      rewrite Heq, log_extend_append. cbn [renames] in Hc.
      rewrite length_app in Hc. cbn [filter is_renamed is_failed_to_rename length] in *.
      repeat split; [f_equal; f_equal; f_equal; lia | lia | lia].
    + match goal with |- context [rename_loop _ _ ?n1 fl ?w1 ?a1] =>
        destruct (IH n1 w1 a1) as (w' & lines & Heq & Hc & Hl) end.
      exists w', (FailedToRename (basename file_path) e :: lines).
      rewrite Heq, log_extend_append. cbn [renames] in Hc.
      rewrite length_app in Hc. cbn [filter is_renamed is_failed_to_rename length] in *.
      repeat split; [lia | lia].
Qed.

(** X7. The number in the last line of a run, "n file(s) renamed", is the
    number of "Renamed" lines that the run wrote, and the run called
    [os.rename] once for each "Renamed" and each "Failed to rename" line:
    a failed rename is not counted. *)
Theorem summary_counts_the_renamed (v : variant) (w : world P)
    (a : FileRenamerApp) :
  files a <> [] ->
  Str.strip (pattern_input a) <> [] ->
  exists w' a' lines,
    rename_files v w a = (Return tt, w', a')
    /\ log_output a'
       = log_output a ++ lines
         ++ [FilesRenamed (length (filter is_renamed lines))]
    /\ length (renames w')
       = length (renames w)
         + length (filter is_renamed lines)
         + length (filter is_failed_to_rename lines).
Proof.
  intros Hf Hp. rewrite rename_files_process by assumption. cbv zeta.
  destruct (rename_loop_count (Str.strip (pattern_input a))
              (Str.strip (replace_input a)) (files a) 0 w a)
    as (w' & lines & Heq & Hc & Hl).
  rewrite Heq. eexists _, _, lines. split; [reflexivity|]. split.
  - destruct (clear_files_files v
                (log_append (FilesRenamed
                               (0 + length (filter is_renamed lines)))
                   (log_extend lines a)))
      as (_ & _ & _ & ->).
    cbn. now rewrite <- app_assoc.
  - lia.
Qed.

(** X8. A run of Process drops all its candidates, the ones whose rename
    failed included: a second Process right after it only says that there
    are no files, and calls nothing. *)
Theorem process_twice (v : variant) (w : world P) (a : FileRenamerApp) :
  files a <> [] ->
  Str.strip (pattern_input a) <> [] ->
  exists w1 a1,
    rename_files v w a = (Return tt, w1, a1)
    /\ rename_files v w1 a1
       = (Return tt, w1, log_append NoFilesToRename a1).
Proof.
  intros Hf Hp.
  assert (H : exists w1 a1,
             rename_files v w a = (Return tt, w1, a1) /\ files a1 = []).
  { rewrite rename_files_process by assumption. cbv zeta.
    destruct (rename_loop_spec (Str.strip (pattern_input a))
                (Str.strip (replace_input a)) (files a) 0 w)
      as (n' & fs' & lines & Heq & _).
    rewrite Heq. eexists _, _. split; [reflexivity|].
    apply clear_files_files. }
  destruct H as (w1 & a1 & Heq & Hnil).
  exists w1, a1. split; [exact Heq|].
  now apply rename_files_no_files.
Qed.

(** X9. Whatever was dropped, typed and clicked before, a run of Process
    hands no path to [os.rename] twice: the sources of its calls are
    pairwise different candidates. *)
Theorem process_renames_each_path_once (v : variant) (es : list event)
    (w : world P) :
  let w1 := snd (fst (session v es w initUI)) in
  let a1 := snd (session v es w initUI) in
  exists calls,
    renames (snd (fst (rename_files v w1 a1))) = renames w1 ++ calls
    /\ NoDup (map fst calls)
    /\ incl (map fst calls) (files a1).
Proof.
  intros w1 a1.
  assert (Hnd : NoDup (files a1)).
  { apply session_keeps_NoDup. constructor. }
  destruct (files a1) as [|f0 fl] eqn:Ef.
  - rewrite rename_files_no_files by assumption.
    exists []. cbn. rewrite app_nil_r. repeat split; [constructor | easy].
  - destruct (Str.strip (pattern_input a1)) as [|c0 pat] eqn:Ep.
    + rewrite rename_files_empty_pattern by congruence.
      exists []. cbn. rewrite app_nil_r.
      repeat split; [constructor | easy].
    + rewrite rename_files_process by congruence. cbv zeta.
      destruct (rename_loop_spec (Str.strip (pattern_input a1))
                  (Str.strip (replace_input a1)) (files a1) 0 w1)
        as (n' & fs' & lines & Heq & _).
      rewrite Heq. eexists. split; [reflexivity|].
      rewrite map_map. cbn [fst]. rewrite map_id, <- Ef. split.
      * apply NoDup_filter. rewrite Ef. exact Hnd.
      * apply incl_filter.
Qed.

(** X10. A drop that carries paths takes exactly the offered paths that
    are existing files: afterwards a path is a candidate if and only if it
    was one before or it was offered and is a file. Directories and paths
    of missing files are left out, and the world is not touched. *)
Theorem drop_takes_the_files (v : variant) (event : drop_event)
    (w : world P) (a : FileRenamerApp) :
  v = PyQt5 \/ hasUrls event = true ->
  exists a',
    dropEvent v event w a = (Return tt, w, a')
    /\ forall p,
         In p (files a')
         <-> In p (files a)
             \/ (In p (urls event) /\ isfile p (fs w) = true).
Proof.
  intros Hv.
  destruct (dropEvent_spec v event w a)
    as (new & a' & Heq & Hf & Hsub & Hnew & _ & Hcov).
  exists a'. split; [exact Heq|].
  intros p. split.
  - rewrite Hf. intros Hin. apply in_app_or in Hin as [Hin|Hin].
    + now left.
    + right. split; [exact (subseq_In _ _ p Hsub Hin) | now apply Hnew].
  - intros [Hin|[Hin Hfile]].
    + rewrite Hf. apply in_or_app. now left.
    + now apply Hcov.
Qed.

End WindowInvariants.

(** ** Further properties of the batch script *)

Section ScriptFacts.

Context {P : Platform}.

Lemma files_loop_counts (patterns : pydict) (root : str) (fl : list str) :
  forall (w : world P) (b : batch),
  exists w' b' lines,
    for_each fl (process_file patterns root) w b = (Return tt, w', b')
    /\ stdout w' = stdout w ++ lines
    /\ log b' = log b ++ lines
    /\ rename_count b'
       = rename_count b + length (filter renamed_line lines)
    /\ skipped_count b'
       = skipped_count b + length (filter skipped_line lines)
    /\ length (renames w')
       = length (renames w) + length (filter renamed_line lines)
         + length (filter failed_line lines)
    /\ length lines
       = length (filter renamed_line lines)
         + length (filter skipped_line lines)
         + length (filter failed_line lines).
Proof.
  induction fl as [|file fl IH]; intros w b.
  - exists w, b, []. cbn. rewrite !app_nil_r, !Nat.add_0_r. auto 10.
  - cbn [for_each]. unfold bind at 1. rewrite process_file_eq.
    destruct (Str.endswith (py ".png") file); [|apply IH].
    cbv zeta.
    destruct (path_changes patterns (root, file));
      [destruct (rename _ _ (fs w)) as [[[]|e] fs1]|];
      match goal with |- context [for_each fl _ ?w1 ?b1] =>
        destruct (IH w1 b1)
          as (w' & b' & lines & Heq & Hout & Hlog & Hrc & Hsc & Hcalls & Hlen)
      end;
      rewrite Heq;
      cbn [stdout log rename_count skipped_count renames] in *;
      rewrite ?length_app in Hcalls; cbn [length] in Hcalls;
      rewrite <- app_assoc in Hout, Hlog.
    + exists w', b', (Processing file
                        (RenamedTo (compute_new_name file patterns)) :: lines).
      cbn [filter renamed_line skipped_line failed_line length].
      repeat split; try assumption; lia.
    + exists w', b', (Processing file (Failed e) :: lines).
      cbn [filter renamed_line skipped_line failed_line length].
      repeat split; try assumption; lia.
    + exists w', b', (Processing file Skipped :: lines).
      cbn [filter renamed_line skipped_line failed_line length].
      repeat split; try assumption; lia.
Qed.

Lemma walk_loop_counts (patterns : pydict) (walk : list (str * list str)) :
  forall (w : world P) (b : batch),
  exists w' b' lines,
    walk_loop patterns walk w b = (Return tt, w', b')
    /\ stdout w' = stdout w ++ lines
    /\ log b' = log b ++ lines
    /\ rename_count b'
       = rename_count b + length (filter renamed_line lines)
    /\ skipped_count b'
       = skipped_count b + length (filter skipped_line lines)
    /\ length (renames w')
       = length (renames w) + length (filter renamed_line lines)
         + length (filter failed_line lines)
    /\ length lines
       = length (filter renamed_line lines)
         + length (filter skipped_line lines)
         + length (filter failed_line lines).
Proof.
  unfold walk_loop.
  induction walk as [|[root fl] walk IH]; intros w b.
  - exists w, b, []. cbn. rewrite !app_nil_r, !Nat.add_0_r. auto 10.
  - cbn [for_each]. unfold bind at 1.
    destruct (files_loop_counts patterns root fl w b)
      as (w1 & b1 & lines1 & Heq1 & Hout1 & Hlog1 & Hrc1 & Hsc1 & Hc1 & Hl1).
    rewrite Heq1.
    destruct (IH w1 b1)
      as (w' & b' & lines & Heq & Hout & Hlog & Hrc & Hsc & Hc & Hl).
    exists w', b', (lines1 ++ lines). rewrite Heq.
    rewrite !filter_app, !length_app.
    rewrite Hout, Hout1, Hlog, Hlog1, <- !app_assoc.
    repeat split; lia.
Qed.

(** X11. The two totals of the batch run count what the loop printed:
    "renamed" the lines with a new name, "skipped" the skipped lines. A
    file whose rename failed is in neither total, so that the totals add up
    to the number of files taken up only when no rename failed. The calls
    of [os.rename] are as many as the renamed and the failed lines. *)
Theorem totals_count_the_lines (patterns : pydict)
    (walk : list (str * list str)) (w : world P) (b : batch) :
  exists w' b' lines,
    walk_loop patterns walk w b = (Return tt, w', b')
    /\ stdout w' = stdout w ++ lines
    /\ length lines = length (png_files walk)
    /\ rename_count b'
       = rename_count b + length (filter renamed_line lines)
    /\ skipped_count b'
       = skipped_count b + length (filter skipped_line lines)
    /\ (rename_count b' - rename_count b)
       + (skipped_count b' - skipped_count b)
       + length (filter failed_line lines)
       = length (png_files walk)
    /\ length (renames w')
       = length (renames w) + length (filter renamed_line lines)
         + length (filter failed_line lines).
Proof.
  destruct (walk_loop_counts patterns walk w b)
    as (w' & b' & lines & Heq & Hout & Hlog & Hrc & Hsc & Hc & Hl).
  destruct (walk_loop_spec patterns walk w b)
    as (fs2 & lines2 & rc2 & Heq2 & Hl2).
  assert (Hlines : lines2 = lines).
  { rewrite Heq in Heq2. injection Heq2 as Hw Hb. subst w'.
    cbn [stdout] in Hout. now apply app_inv_head in Hout. }
  subst lines2.
  assert (Hn : length lines = length (png_files walk)).
  { clear - Hl2. induction Hl2; cbn; congruence. }
  exists w', b', lines. repeat split; try assumption; lia.
Qed.

Lemma files_loop_png_only (patterns : pydict) (root : str) (fl : list str) :
  forall (w : world P) (b : batch),
  for_each fl (process_file patterns root) w b
  = for_each (filter (Str.endswith (py ".png")) fl)
      (process_file patterns root) w b.
Proof.
  induction fl as [|file fl IH]; intros w b; [reflexivity|].
  cbn [filter]. destruct (Str.endswith (py ".png") file) eqn:Hpng.
  - cbn [for_each]. unfold bind.
    destruct (process_file patterns root file w b) as [[[[]|e] w1] b1];
      [apply IH | reflexivity].
  - cbn [for_each]. unfold bind at 1.
    rewrite process_file_eq, Hpng. apply IH.
Qed.

(** X12. Files whose name does not end in ".png" (in lower case) play no
    part in the loop: the run over a walk is the run over the walk with
    those files left out; they are not renamed, not printed, not counted. *)
Theorem other_files_are_ignored (patterns : pydict)
    (walk : list (str * list str)) :
  forall (w : world P) (b : batch),
  walk_loop patterns walk w b = walk_loop patterns (png_only walk) w b.
Proof.
  unfold walk_loop, png_only.
  induction walk as [|[root fl] walk IH]; intros w b; [reflexivity|].
  cbn [map for_each]. unfold bind.
  rewrite <- files_loop_png_only.
  destruct (for_each fl (process_file patterns root) w b)
    as [[[[]|e] w1] b1]; [apply IH | reflexivity].
Qed.

(** X13. When the log file cannot be opened, the exception of [open]
    leaves [rename_files]: the run ends there, before the walk, with
    nothing renamed and only the complaint about the rule file printed. *)
Theorem log_file_must_open (CONFIG_FILE LOG_FILE : str)
    (csv_reader : str -> list (list str)) (walk : list (str * list str))
    (w : world P) (b : batch) (e : exn) (fs' : FS) :
  open_write LOG_FILE (fs w) = (Raise e, fs') ->
  exists e0,
    Batch.rename_files CONFIG_FILE LOG_FILE csv_reader walk w b
    = (Raise e,
       World fs' (renames w) (stdout w ++ [ErrorReadingConfig e0]),
       b).
Proof.
  intros Hopen.
  unfold Batch.rename_files. unfold bind at 1. unfold call.
  rewrite load_rename_patterns_eq. eexists.
  unfold rename_with. unfold bind at 1. unfold py_open_write.
  cbn [fs renames stdout]. rewrite Hopen. reflexivity.
Qed.

(** X14. When the log file opens, the run returns, and the log file and
    the console hold the same lines for the files and the same two totals,
    the totals being the counters at the end of the loop; the log file
    starts with the line of the start in addition. *)
Theorem log_file_repeats_the_console (LOG_FILE : str) (patterns : pydict)
    (walk : list (str * list str)) (w : world P) (b : batch) (fs1 : FS) :
  open_write LOG_FILE (fs w) = (Return tt, fs1) ->
  exists w' b' lines,
    rename_with LOG_FILE patterns walk w b = (Return tt, w', b')
    /\ stdout w'
       = stdout w ++ lines
         ++ [Finished; TotalRenamed (rename_count b');
             TotalSkipped (skipped_count b')]
    /\ log b'
       = log b ++ [Started] ++ lines
         ++ [Finished; TotalRenamed (rename_count b');
             TotalSkipped (skipped_count b')]
    /\ Forall2 (line_for patterns) (png_files walk) lines.
Proof.
  intros Hopen.
  unfold rename_with. unfold bind at 1. unfold py_open_write.
  rewrite Hopen. unfold bind at 1. unfold log_write at 1, modify.
  unfold bind at 1.
  match goal with |- context [walk_loop patterns walk ?w1 ?b1] =>
    destruct (walk_loop_spec patterns walk w1 b1)
      as (fs' & lines & rc & Heq & Hl)
  end.
  rewrite Heq. cbn [renames stdout log rename_count skipped_count
                    processed_paths].
  eexists _, _, lines. split; [reflexivity|].
  cbn. rewrite <- !app_assoc. cbn. auto.
Qed.

(** X15. A directory is among the processed paths after the loop exactly
    when it was there before or the walk gave a file for it whose name
    ends in ".png": directories without such a file are not listed. *)
Theorem processed_paths_hold_the_png_folders (patterns : pydict)
    (walk : list (str * list str)) (w : world P) (b : batch) :
  exists w' b',
    walk_loop patterns walk w b = (Return tt, w', b')
    /\ forall root,
         In root (processed_paths b')
         <-> In root (processed_paths b)
             \/ exists files file,
                  In (root, files) walk /\ In file files
                  /\ Str.endswith (py ".png") file = true.
Proof.
  destruct (walk_loop_spec patterns walk w b)
    as (fs' & lines & rc & Heq & _).
  rewrite Heq. eexists _, _. split; [reflexivity|].
  intros root. cbn [processed_paths]. rewrite in_app_iff.
  apply or_iff_compat_l.
  rewrite in_map_iff. split.
  - intros ([r file] & Hr & Hin). cbn in Hr. subst r.
    unfold png_files in Hin. apply in_flat_map in Hin as ([r fl] & Hw & Hin).
    unfold pngs_of in Hin. apply in_map_iff in Hin as (f & Hf & Hin).
    injection Hf as -> ->. apply filter_In in Hin as [Hin Hpng].
    now exists fl, file.
  - intros (fl & file & Hw & Hin & Hpng).
    exists (root, file). split; [reflexivity|].
    unfold png_files. apply in_flat_map. exists (root, fl).
    split; [exact Hw|]. unfold pngs_of. apply in_map.
    now apply filter_In.
Qed.

Lemma compute_new_name_no_match (patterns : pydict) :
  forall file : str,
  (forall p r, In (p, r) patterns -> Str.contains p file = false) ->
  compute_new_name file patterns = file.
Proof.
  unfold compute_new_name.
  induction patterns as [|[p r] patterns IH]; intros file H; [reflexivity|].
  cbn [fold_left apply_pattern].
  rewrite (H p r) by now left.
  apply IH. intros p' r' Hin. apply (H p' r'). now right.
Qed.

(** X16. A file in whose name no pattern of the rule set occurs keeps its
    name and is skipped: the loop prints and logs it as skipped, counts it
    and does not call [os.rename]. *)
Theorem no_match_is_skipped (patterns : pydict) (root file : str)
    (w : world P) (b : batch) :
  Str.endswith (py ".png") file = true ->
  (forall p r, In (p, r) patterns -> Str.contains p file = false) ->
  compute_new_name file patterns = file
  /\ process_file patterns root file w b
     = (Return tt,
        World (fs w) (renames w) (stdout w ++ [Processing file Skipped]),
        Batch (rename_count b) (skipped_count b + 1)
              (processed_paths b ++ [root])
              (log b ++ [Processing file Skipped])).
Proof.
  intros Hpng Hno.
  pose proof (compute_new_name_no_match patterns file Hno) as Hname.
  split; [exact Hname|].
  rewrite process_file_eq, Hpng. cbv zeta.
  unfold path_changes. now rewrite Hname, str_eqb_refl.
Qed.

(** X17. The loop never asks [os.rename] to rename a path to itself:
    every call it makes is for a file of the walk whose name ends in
    ".png", from its path to a different path in the same directory, with
    a new name that differs from the old one. *)
Theorem batch_renames_only_changed_paths (patterns : pydict)
    (walk : list (str * list str)) (w : world P) (b : batch) :
  exists w' b' calls,
    walk_loop patterns walk w b = (Return tt, w', b')
    /\ renames w' = renames w ++ calls
    /\ forall src dst,
         In (src, dst) calls ->
         src <> dst
         /\ exists root file,
              In (root, file) (png_files walk)
              /\ src = join root file
              /\ dst = join root (compute_new_name file patterns)
              /\ compute_new_name file patterns <> file.
Proof.
  destruct (walk_loop_spec patterns walk w b)
    as (fs' & lines & rc & Heq & _).
  rewrite Heq. eexists _, _, _. split; [reflexivity|].
  split; [reflexivity|].
  intros src dst Hin.
  apply in_map_iff in Hin as ([root file] & Hargs & Hin).
  apply filter_In in Hin as [Hin Hch].
  cbn in Hargs. injection Hargs as <- <-.
  unfold path_changes in Hch. apply negb_true_iff in Hch.
  assert (Hne : join root file
                <> join root (compute_new_name file patterns)).
  { intros Hc. apply str_eqb_eq in Hc. congruence. }
  split; [exact Hne|].
  exists root, file. repeat split; auto.
  intros Hc. apply Hne. now rewrite Hc.
Qed.

End ScriptFacts.

(** ** The programs at work *)

Section Runs.

Import Sample.

(** C1 on a texture name. *)
Lemma compute_new_name_replaces_all_run :
  ReplacedAll (py "_Diffuse") (py "_COL")
    (py "wood_Diffuse.png") (py "wood_COL.png").
Proof.
  destruct (@compute_new_name_replaces_all platform) as [H _].
  destruct (H (py "wood_Diffuse.png") (py "_Diffuse") (py "_COL")) as [_ Hiff].
  - discriminate.
  - apply Hiff. vm_compute. reflexivity.
Defined.

(** C2: the window hands a file to [os.rename] under its own name, and
    reports it as renamed, when the replacement is the pattern. *)
Lemma window_renames_to_the_same_name :
  let file_path := py "/tex/wood_Normal.png" in
  compute_new_name (basename file_path) [(py "wood", py "wood")]
    = basename file_path
  /\ rename_files PyQt5 (start tex)
       (window [file_path] (py "wood") (py "wood"))
     = (Return tt,
        World tex [(file_path, file_path)] [],
        App [] [] 0 (py "wood") (py "wood") []
            [Renamed (py "wood_Normal.png") (py "wood_Normal.png");
             FilesRenamed 1]).
Proof. vm_compute. split; reflexivity. Qed.

Lemma unchanged_name_is_skipped_by_the_batch_run :
  process_file [(py "_Diffuse", py "_COL")] (py "/tex")
    (py "wood_Normal.png") (start tex) batch_start
  = (Return tt,
     World tex [] [Processing (py "wood_Normal.png") Skipped],
     Batch 0 1 [py "/tex"] [Processing (py "wood_Normal.png") Skipped]).
Proof.
  destruct (@unchanged_name_is_skipped_by_the_batch platform) as [H _].
  rewrite H; reflexivity.
Defined.



(** C4: a candidate in whose name the pattern does not occur gets no
    line; the log holds the count only. *)
Lemma window_is_silent_about_a_candidate :
  let file_path := py "/tex/wood_Normal.png" in
  rename_files PyQt5 (start tex)
    (window [file_path] (py "_Diffuse") (py "_COL"))
  = (Return tt, start tex,
     App [] [] 0 (py "_Diffuse") (py "_COL") [] [FilesRenamed 0])
  /\ ~ exists l, In l [FilesRenamed 0] /\ reports file_path l.
Proof.
  split; [vm_compute; reflexivity|].
  intros (l & [<-|[]] & [[x Hx]|[x Hx]]); discriminate.
Qed.

Lemma one_line_per_processed_file_run :
  exists w' a' lines n,
    rename_files PyQt5 (start tex)
      (window [py "/tex/wood_Normal.png"; py "/tex/oak_Diffuse.png"]
              (py "_Diffuse") (py "_COL"))
    = (Return tt, w', a')
    /\ log_output a' = [] ++ lines ++ [FilesRenamed n]
    /\ Forall2 reports [py "/tex/oak_Diffuse.png"] lines.
Proof.
  destruct (@one_line_per_processed_file platform) as [_ H].
  apply (H PyQt5 (start tex)
           (window [py "/tex/wood_Normal.png"; py "/tex/oak_Diffuse.png"]
                   (py "_Diffuse") (py "_COL"))); discriminate.
Defined.

(** C5: the first rename fails, as the destination exists; the loop goes
    on with the second candidate. *)
Lemma rename_errors_are_caught_run :
  rename_loop (py "_Diffuse") (py "_COL") 0
    [py "/tex/wood_Diffuse.png"; py "/tex/oak_Diffuse.png"]
    (start tex) initUI
  = rename_loop (py "_Diffuse") (py "_COL") 0
      [py "/tex/oak_Diffuse.png"]
      (World tex [(py "/tex/wood_Diffuse.png", py "/tex/wood_COL.png")] [])
      (log_append
         (FailedToRename (py "wood_Diffuse.png")
            (OSError (py "Cannot create a file when that file already exists")))
         initUI).
Proof.
  destruct (@rename_errors_are_caught platform) as (_ & H & _).
  apply (H (py "_Diffuse") (py "_COL") 0 (py "/tex/wood_Diffuse.png")
           [py "/tex/oak_Diffuse.png"] (start tex) initUI
           (OSError (py "Cannot create a file when that file already exists"))
           tex); reflexivity.
Defined.

(** C6: with the pattern as replacement the name never changes, although
    the pattern occurs in the name and in the replacement. *)
Lemma reapplying_the_same_text_changes_nothing :
  Str.contains (py "wood") (py "wood.png") = true
  /\ Str.contains (py "wood") (py "wood") = true
  /\ compute_new_name
       (compute_new_name (py "wood.png") [(py "wood", py "wood")])
       [(py "wood", py "wood")]
     = compute_new_name (py "wood.png") [(py "wood", py "wood")].
Proof. vm_compute. repeat split. Qed.

Lemma reapplying_a_rule_run :
  compute_new_name
    (compute_new_name (py "wood.png") [(py "wood", py "wood_old")])
    [(py "wood", py "wood_old")]
  <> compute_new_name (py "wood.png") [(py "wood", py "wood_old")]
  /\ Nat.iter 3 (apply_again (py "wood") (py "wood_old")) (py "wood.png")
     <> Nat.iter 2 (apply_again (py "wood") (py "wood_old")) (py "wood.png")
  /\ process_file [(py "_Diffuse", py "_COL")] (py "/tex")
       (Str.replace (py "_Diffuse") (py "_COL") (py "oak_Diffuse.png"))
       (start tex) batch_start
     = (Return tt,
        World tex []
          ([] ++ [Processing
                    (Str.replace (py "_Diffuse") (py "_COL")
                       (py "oak_Diffuse.png")) Skipped]),
        Batch 0 (0 + 1) ([] ++ [py "/tex"])
          ([] ++ [Processing
                    (Str.replace (py "_Diffuse") (py "_COL")
                       (py "oak_Diffuse.png")) Skipped])).
Proof.
  destruct (@reapplying_a_rule platform) as (H1 & H2 & H3 & _).
  split; [|split].
  - apply H2; [reflexivity | reflexivity | discriminate].
  - apply (H3 (py "wood.png") (py "wood") (py "wood_old") 1);
      [reflexivity | reflexivity | discriminate].
  - destruct (H1 (py "oak_Diffuse.png") (py "_Diffuse") (py "_COL"))
      as (_ & _ & Hskip & _); [reflexivity|].
    apply (Hskip (py "/tex") (start tex) batch_start). reflexivity.
Defined.

(** C7: a path that the window holds is not taken again. *)
Lemma candidates_are_deduplicated_run :
  files (snd (dropEvent PyQt6
                (DropEvent true [py "/tex/wood_Normal.png"]) (start tex)
                (window [py "/tex/wood_Normal.png"] [] [])))
  = [py "/tex/wood_Normal.png"].
Proof.
  destruct (@candidates_are_deduplicated platform) as (_ & _ & H & _).
  apply (H PyQt6 true (py "/tex/wood_Normal.png") (start tex)
           (window [py "/tex/wood_Normal.png"] [] [])).
  simpl. left. reflexivity.
Defined.

(** C8: the candidates are gone after a run in which the only rename
    failed. *)
Lemma process_rejects_or_clears_run :
  exists w' a',
    rename_files PyQt6 (start tex)
      (window [py "/tex/wood_Diffuse.png"] (py "_Diffuse") (py "_COL"))
    = (Return tt, w', a')
    /\ files a' = [] /\ drop_area a' = [] /\ file_count_label a' = 0.
Proof.
  destruct (process_rejects_or_clears PyQt6 (start tex)
              (window [py "/tex/wood_Diffuse.png"] (py "_Diffuse") (py "_COL")))
    as (w' & a' & Heq & _ & Hclear).
  exists w', a'. split; [exact Heq|].
  apply Hclear; discriminate.
Defined.

(** C9: the rule file is there and can be opened; the exception is the
    [NameError]. *)
Lemma load_rename_patterns_returns_no_rule_run :
  exists e,
    load_rename_patterns (py "/rules.csv") (fun _ => [[py "a"; py "b"]])
      (start [(py "/rules.csv", py "a;b")]) []
    = (Return [],
       World [(py "/rules.csv", py "a;b")] [] [ErrorReadingConfig e],
       [])
    /\ e = NameError "csv".
Proof.
  destruct (@load_rename_patterns_returns_no_rule platform) as [H _].
  destruct (H (py "/rules.csv") (fun _ => [[py "a"; py "b"]])
              (start [(py "/rules.csv", py "a;b")]))
    as (e & Heq & Hname & _).
  exists e. split; [exact Heq|].
  apply (Hname (py "a;b")). reflexivity.
Defined.

(** C10: without candidates a pattern of blanks is answered with the
    line about the files, not with the one about the pattern; and the
    preview of the PyQt6 window works with the texts as typed, so that a
    blank typed behind the replacement shows in the new name and a blank
    typed before the pattern keeps it from matching. *)
Lemma blanks_outside_process :
  forallb Str.isspace (py "   ") = true
  /\ rename_files PyQt5 (start tex) (window [] (py "   ") (py "_COL"))
     = (Return tt, start tex,
        log_append NoFilesToRename (window [] (py "   ") (py "_COL")))
  /\ preview_area
       (update_preview
          (window [py "/tex/oak_Diffuse.png"] (py "_Diffuse") (py "_COL ")))
     = [WillRename (py "oak_Diffuse.png") (py "oak_COL .png")]
  /\ preview_area
       (update_preview
          (window [py "/tex/oak_Diffuse.png"] (py " _Diffuse") (py "_COL")))
     = [NoChange (py "oak_Diffuse.png")].
Proof. vm_compute. repeat split. Qed.

(** C10: the blanks around the typed pattern do not count. *)
Lemma texts_are_stripped_run :
  Str.strip (py "  " ++ py "_Diffuse" ++ py " ") = Str.strip (py "_Diffuse")
  /\ rename_files PyQt6 (start tex)
       (window [py "/tex/oak_Diffuse.png"] (py "   ") (py "_COL"))
     = (Return tt, start tex,
        log_append PatternCannotBeEmpty
          (window [py "/tex/oak_Diffuse.png"] (py "   ") (py "_COL")))
  /\ (exists w' a',
        rename_files PyQt6 (start tex)
          (window [py "/tex/oak_Diffuse.png"] (py " _Diffuse ") (py " _COL"))
        = (Return tt, w', a')
        /\ renames w'
           = [(py "/tex/oak_Diffuse.png", py "/tex/oak_COL.png")]).
Proof.
  destruct (@texts_are_stripped platform)
    as (H1 & _ & _ & H4 & _ & _ & H7).
  split; [|split].
  - apply H1; reflexivity.
  - apply H4; [discriminate | reflexivity].
  - destruct (H7 PyQt6 (start tex)
                (window [py "/tex/oak_Diffuse.png"] (py " _Diffuse ")
                        (py " _COL")))
      as (w' & a' & Heq & Hcalls); [discriminate | discriminate |].
    exists w', a'. split; [exact Heq | exact Hcalls].
Defined.

(** The scenarios of the textures: a rename, a candidate passed over, and
    the rule set of the script's own example. *)
Lemma scenario_renamed :
  rename_files PyQt6 (start tex)
    (window [py "/tex/oak_Diffuse.png"] (py "_Diffuse") (py "_COL"))
  = (Return tt,
     World [(py "/tex/wood_Diffuse.png", []); (py "/tex/wood_COL.png", []);
            (py "/tex/oak_COL.png", []); (py "/tex/wood_Normal.png", [])]
       [(py "/tex/oak_Diffuse.png", py "/tex/oak_COL.png")] [],
     App [] [] 0 (py "_Diffuse") (py "_COL") []
       [Renamed (py "oak_Diffuse.png") (py "oak_COL.png"); FilesRenamed 1]).
Proof. vm_compute. reflexivity. Qed.

Lemma scenario_target_exists :
  rename_files PyQt6 (start tex)
    (window [py "/tex/wood_Diffuse.png"; py "/tex/oak_Diffuse.png"]
            (py "_Diffuse") (py "_COL"))
  = (Return tt,
     World [(py "/tex/wood_Diffuse.png", []); (py "/tex/wood_COL.png", []);
            (py "/tex/oak_COL.png", []); (py "/tex/wood_Normal.png", [])]
       [(py "/tex/wood_Diffuse.png", py "/tex/wood_COL.png");
        (py "/tex/oak_Diffuse.png", py "/tex/oak_COL.png")] [],
     App [] [] 0 (py "_Diffuse") (py "_COL") []
       [FailedToRename (py "wood_Diffuse.png")
          (OSError (py "Cannot create a file when that file already exists"));
        Renamed (py "oak_Diffuse.png") (py "oak_COL.png");
        FilesRenamed 1]).
Proof. vm_compute. reflexivity. Qed.

Lemma scenario_two_rules :
  compute_new_name (py "part_BaseColor.png")
    [(py "_BaseColor.png", py "_COL.png");
     (py "_Metallic.png", py "_METAL.png")]
  = py "part_COL.png".
Proof. reflexivity. Qed.

End Runs.

(** ** Further runs *)

Section MoreRuns.

Import Sample.

(** X3: the preview of two candidates, and the calls of Process. *)
Lemma preview_predicts_the_renames_run :
  exists w' a',
    rename_files PyQt6 (start tex)
      (window [py "/tex/oak_Diffuse.png"; py "/tex/wood_Normal.png"]
              (py "_Diffuse") (py "_COL"))
    = (Return tt, w', a')
    /\ renames w' = [(py "/tex/oak_Diffuse.png", py "/tex/oak_COL.png")].
Proof.
  destruct (@preview_predicts_the_renames platform (start tex)
              (window [py "/tex/oak_Diffuse.png"; py "/tex/wood_Normal.png"]
                      (py "_Diffuse") (py "_COL")))
    as (w' & a' & Heq & Hcalls); try discriminate; try reflexivity.
  exists w', a'. split; [exact Heq | exact Hcalls].
Defined.

(** X4: no pattern typed, "x" as replacement. *)
Lemma preview_of_the_empty_pattern_run :
  preview_area
    (update_preview (window [py "/tex/a.png"] [] (py "x")))
  = [WillRename (py "a.png") (py "xax.xpxnxgx")].
Proof.
  destruct (@preview_of_the_empty_pattern platform
              (window [py "/tex/a.png"] [] (py "x")))
    as [H _]; [reflexivity|].
  exact H.
Defined.

(** X5: a drop, some typing and Cancel. *)
Lemma only_process_touches_the_files_run :
  exists a',
    session PyQt6
      [Drop (DropEvent true [py "/tex/wood_Normal.png"]);
       TypePattern (py "_Normal"); TypeReplace (py "_NRM"); Cancel]
      (start tex) initUI
    = (Return tt, start tex, a').
Proof.
  apply (@only_process_touches_the_files platform).
  intros [H|[H|[H|[H|[]]]]]; discriminate.
Defined.

(** X7: one rename fails, one succeeds; the count is one. *)
Lemma summary_counts_the_renamed_run :
  exists w' a' lines,
    rename_files PyQt5 (start tex)
      (window [py "/tex/wood_Diffuse.png"; py "/tex/oak_Diffuse.png"]
              (py "_Diffuse") (py "_COL"))
    = (Return tt, w', a')
    /\ log_output a'
       = [] ++ lines ++ [FilesRenamed (length (filter is_renamed lines))]
    /\ length (renames w')
       = 0 + length (filter is_renamed lines)
         + length (filter is_failed_to_rename lines).
Proof.
  apply (@summary_counts_the_renamed platform); discriminate.
Defined.

(** X8: Process, and Process again. *)
Lemma process_twice_run :
  exists w1 a1,
    rename_files PyQt5 (start tex)
      (window [py "/tex/wood_Diffuse.png"] (py "_Diffuse") (py "_COL"))
    = (Return tt, w1, a1)
    /\ rename_files PyQt5 w1 a1
       = (Return tt, w1, log_append NoFilesToRename a1).
Proof.
  apply (@process_twice platform); discriminate.
Defined.

(** X10: a file and a folder are dropped; the file is taken. *)
Lemma drop_takes_the_files_run :
  exists a',
    dropEvent PyQt6
      (DropEvent true [py "/tex/wood_Normal.png"; py "/tex"])
      (start tex) initUI
    = (Return tt, start tex, a')
    /\ forall p,
         In p (files a')
         <-> In p (files initUI)
             \/ (In p [py "/tex/wood_Normal.png"; py "/tex"]
                 /\ exists_file p tex = true).
Proof.
  apply (@drop_takes_the_files platform PyQt6
           (DropEvent true [py "/tex/wood_Normal.png"; py "/tex"])
           (start tex) initUI).
  right. reflexivity.
Defined.

(** X13: the log directory cannot be written. *)
Lemma log_file_must_open_run :
  exists e0,
    @Batch.rename_files ReadOnly.platform (py "/rules.csv") (py "/log.txt")
      (fun _ => []) [(py "/tex", [py "wood_Diffuse.png"])]
      (ReadOnly.start tex) batch_start
    = (Raise ReadOnly.denied,
       @World ReadOnly.platform tex [] [ErrorReadingConfig e0],
       batch_start).
Proof.
  apply (@log_file_must_open ReadOnly.platform (py "/rules.csv")
           (py "/log.txt") (fun _ => [])
           [(py "/tex", [py "wood_Diffuse.png"])]
           (ReadOnly.start tex) batch_start ReadOnly.denied tex).
  reflexivity.
Defined.

(** X14: a run with one rule over the folder of textures. *)
Lemma log_file_repeats_the_console_run :
  exists w' b' lines,
    rename_with (py "/log.txt") [(py "_Diffuse", py "_COL")]
      [(py "/tex", [py "oak_Diffuse.png"; py "wood_Normal.png"])]
      (start tex) batch_start
    = (Return tt, w', b')
    /\ stdout w'
       = [] ++ lines
         ++ [Finished; TotalRenamed (rename_count b');
             TotalSkipped (skipped_count b')]
    /\ log b'
       = [] ++ [Started] ++ lines
         ++ [Finished; TotalRenamed (rename_count b');
             TotalSkipped (skipped_count b')]
    /\ Forall2 (line_for [(py "_Diffuse", py "_COL")])
         (png_files
            [(py "/tex", [py "oak_Diffuse.png"; py "wood_Normal.png"])])
         lines.
Proof.
  apply (@log_file_repeats_the_console platform (py "/log.txt")
           [(py "_Diffuse", py "_COL")]
           [(py "/tex", [py "oak_Diffuse.png"; py "wood_Normal.png"])]
           (start tex) batch_start
           ((py "/log.txt", []) :: tex)).
  reflexivity.
Defined.

(** X16: the rule for the diffuse maps and a normal map. *)
Lemma no_match_is_skipped_run :
  compute_new_name (py "wood_Normal.png") [(py "_Diffuse", py "_COL")]
  = py "wood_Normal.png"
  /\ process_file [(py "_Diffuse", py "_COL")] (py "/tex")
       (py "wood_Normal.png") (start tex) batch_start
     = (Return tt,
        World tex [] [Processing (py "wood_Normal.png") Skipped],
        Batch 0 1 [py "/tex"] [Processing (py "wood_Normal.png") Skipped]).
Proof.
  apply (@no_match_is_skipped platform [(py "_Diffuse", py "_COL")]
           (py "/tex") (py "wood_Normal.png") (start tex) batch_start).
  - reflexivity.
  - intros p r [H|[]]. injection H as <- <-. reflexivity.
Defined.

End MoreRuns.
